(** * gx-poc: the statistics-driven profiler and the validator

    A shallow embedding of [gx/scripts/profile_data.py],
    [gx/scripts/run_validation.py] and [gx/scripts/init_gx.py].

    - Python [float] is IEEE-754 binary64; it is modelled by the Standard
      Library's [spec_float] at precision 53 and maximal exponent 1024, with
      round-to-nearest-even arithmetic ([SFmul], [SFadd], [SFsub], [SFdiv]).
    - Python [int] is [Z]; [None] is [option]'s [None].
    - Column names and messages are [string]s; [str.lower] folds the ASCII
      letters (column names of the profiled schema are ASCII identifiers).
    - The Great Expectations context, the suites it stores and the database
      are external: they are an interface ([Framework], [Engine],
      [Validation]) whose operations may raise.  Programs run in a state and
      exception monad over a world made of the framework's state and of the
      lines printed so far. *)

From Stdlib Require Import ZArith List String Ascii DecimalString Bool Lia Permutation.
From Stdlib Require Import Floats.SpecFloat.
Import ListNotations.
Local Open Scope string_scope.
Local Open Scope list_scope.
Local Open Scope Z_scope.

Set Implicit Arguments.

(* ===================================================================== *)
(** ** Python floats *)
(* ===================================================================== *)

Module Float.

Definition prec : Z := 53.
Definition emax : Z := 1024.

Definition float : Type := spec_float.

Definition mul : float -> float -> float := SFmul prec emax.
Definition add : float -> float -> float := SFadd prec emax.
Definition sub : float -> float -> float := SFsub prec emax.
Definition div : float -> float -> float := SFdiv prec emax.
Definition abs : float -> float := SFabs.

(** [x == y] and [x != y]; a NaN differs from everything, itself included. *)
Definition eqb : float -> float -> bool := SFeqb.
Definition neb (x y : float) : bool := negb (eqb x y).

(** The double nearest to the integer [n] (ties to even); it is an
    infinity when [n] is beyond the range of binary64. *)
Definition of_Z (n : Z) : float := binary_normalize prec emax n 0 false.

(** A decimal literal [num/den], read as the nearest double. *)
Definition literal (num den : Z) : float := div (of_Z num) (of_Z den).

(** Truncation toward zero, the integer part that [int(x)] returns;
    [None] on an infinity or a NaN. *)
Definition trunc (x : float) : option Z :=
  match x with
  | S754_zero _ => Some 0
  | S754_finite s m e => Some (cond_Zopp s (Z.shiftl (Zpos m) e))
  | S754_infinity _ | S754_nan => None
  end.

(** The integer nearest to [n/d], ties to the even one ([0 < d]). *)
Definition half_even (n d : Z) : Z :=
  let q := n / d in
  match 2 * (n mod d) ?= d with
  | Lt => q
  | Gt => q + 1
  | Eq => if Z.even q then q else q + 1
  end.

(** [|x| * 10^ndigits] rounded to an integer, for [|x| = m * 2^e]. *)
Definition scaled (ndigits : Z) (m : positive) (e : Z) : Z :=
  if 0 <=? e then Zpos m * 2 ^ e * 10 ^ ndigits
  else half_even (Zpos m * 10 ^ ndigits) (2 ^ (- e)).

(** [round(x, ndigits)] for [0 <= ndigits]: CPython prints [x] with
    [ndigits] correctly rounded decimals (ties on the exact binary value
    go to even) and reads the decimal back as the nearest double; the
    sign of [x] is kept, infinities and NaN are returned unchanged. *)
Definition round (x : float) (ndigits : Z) : float :=
  match x with
  | S754_finite s m e =>
      match scaled ndigits m e with
      | Zpos k =>
          div (S754_finite s k 0)
              (S754_finite false (Z.to_pos (10 ^ ndigits)) 0)
      | _ => S754_zero s
      end
  | _ => x
  end.

End Float.

(** The literals of [profile_data.py]. *)
Definition lit_0_1 : Float.float := Float.literal 1 10.
Definition lit_0_8 : Float.float := Float.literal 8 10.
Definition lit_1_2 : Float.float := Float.literal 12 10.

(* ===================================================================== *)
(** ** Python strings *)
(* ===================================================================== *)

Definition lower_ascii (c : ascii) : ascii :=
  let n := nat_of_ascii c in
  if (Nat.leb 65 n && Nat.leb n 90)%bool then ascii_of_nat (n + 32) else c.

(** [s.lower()] *)
Fixpoint lower (s : string) : string :=
  match s with
  | EmptyString => EmptyString
  | String c s' => String (lower_ascii c) (lower s')
  end.

(** [sub in s] *)
Fixpoint contains (sub s : string) : bool :=
  (prefix sub s ||
   match s with
   | EmptyString => false
   | String _ s' => contains sub s'
   end)%bool.

(** [s.endswith(suffix)] *)
Fixpoint endswith (s suffix : string) : bool :=
  (String.eqb s suffix ||
   match s with
   | EmptyString => false
   | String _ s' => endswith s' suffix
   end)%bool.

(* ===================================================================== *)
(** ** Exceptions and the program monad *)
(* ===================================================================== *)

(** The exceptions that occur.  [Error] stands for what the framework or the
    database driver raises; all but [SystemExit] derive from Python's
    [Exception]. *)
Inductive exn : Type :=
| TypeError (msg : string)
| ValueError (msg : string)
| OverflowError (msg : string)
| Error (msg : string)
| SystemExit (code : Z).

(** [str(e)] *)
Definition str (e : exn) : string :=
  match e with
  | TypeError msg | ValueError msg | OverflowError msg | Error msg => msg
  | SystemExit code => NilZero.string_of_int (Z.to_int code)
  end.

Definition is_Exception (e : exn) : bool :=
  match e with SystemExit _ => false | _ => true end.

Inductive result (A : Type) : Type :=
| Ok (a : A)
| Raise (e : exn).
Arguments Ok {A} a.
Arguments Raise {A} e.

(** A computation reads and updates a world [W]; the world it leaves behind
    is kept when it raises, as the mutations of a Python object are. *)
Definition M (W A : Type) : Type := W -> W * result A.

Definition ret {W A} (a : A) : M W A := fun w => (w, Ok a).
Definition raise {W A} (e : exn) : M W A := fun w => (w, Raise e).
Definition bind {W A B} (m : M W A) (k : A -> M W B) : M W B :=
  fun w => match m w with
           | (w', Ok a) => k a w'
           | (w', Raise e) => (w', Raise e)
           end.

(** [try: m  except Exception as e: handler e] *)
Definition try_except {W A} (m : M W A) (handler : exn -> M W A) : M W A :=
  fun w => match m w with
           | (w', Ok a) => (w', Ok a)
           | (w', Raise e) => if is_Exception e then handler e w' else (w', Raise e)
           end.

(** A pure computation that may raise. *)
Definition lift {W A} (r : result A) : M W A := fun w => (w, r).

Declare Scope py_scope.
Delimit Scope py_scope with py.
Notation "x <- m ;; k" := (bind m (fun x => k))
  (at level 61, m at next level, right associativity) : py_scope.
Notation "m ;; k" := (bind m (fun _ => k))
  (at level 61, right associativity) : py_scope.
Local Open Scope py_scope.

(** [for x in l: body x] *)
Fixpoint for_each {W A} (l : list A) (body : A -> M W unit) : M W unit :=
  match l with
  | [] => ret tt
  | x :: l' => body x ;; for_each l' body
  end.

(** A loop that carries the variables [acc] it assigns. *)
Fixpoint for_fold {W A B} (l : list A) (acc : B) (body : B -> A -> M W B) : M W B :=
  match l with
  | [] => ret acc
  | x :: l' => acc' <- body acc x ;; for_fold l' acc' body
  end.

(* ===================================================================== *)
(** ** Console output *)
(* ===================================================================== *)

(** A printed line is kept as the pieces of its f-string: literal text and
    the interpolated values, numbers unrendered. *)
Inductive piece : Type :=
| Lit (text : string)
| Str (value : string)
| Int (value : Z)
| IntOrNone (value : option Z)
| Fixed2 (value : Float.float).

Definition line : Type := list piece.

Record world (G : Type) : Type := mkWorld {
  gx : G;
  stdout : list line
}.
Arguments mkWorld {G} gx stdout.

Definition set_gx {G} (g : G) (w : world G) : world G := mkWorld g (stdout w).

Definition print {G} (l : line) : M (world G) unit :=
  fun w => (mkWorld (gx w) (stdout w ++ [l]), Ok tt).

(** A call into the framework or the database driver, over their state [G]:
    it returns, or it raises an exception derived from [Exception], of which
    the scripts read the message only. *)
Definition API (G A : Type) : Type := G -> G * (A + string).

Definition call {G A} (op : API G A) : M (world G) A :=
  fun w => match op (gx w) with
           | (g, inl a) => (set_gx g w, Ok a)
           | (g, inr msg) => (set_gx g w, Raise (Error msg))
           end.

(** The same for a call that has no state. *)
Definition attempt {W A} (r : A + string) : M W A :=
  fun w => match r with
           | inl a => (w, Ok a)
           | inr msg => (w, Raise (Error msg))
           end.

Definition newline : string := String (ascii_of_nat 10) EmptyString.

(** ['=' * n] *)
Definition rule (n : nat) : string := concat "" (repeat "=" n).

(** [f"{x:.2f}"]: formatting [None] with a float format raises. *)
Definition fmt_2f (x : option Float.float) : result piece :=
  match x with
  | Some v => Ok (Fixed2 v)
  | None => Raise (TypeError "unsupported format string passed to NoneType.__format__")
  end.

(** [n * x] for an int [n] and a float [x]: [n] is converted first. *)
Definition int_mul_float (n : Z) (x : Float.float) : result Float.float :=
  match Float.of_Z n with
  | S754_infinity _ | S754_nan => Raise (OverflowError "int too large to convert to float")
  | a => Ok (Float.mul a x)
  end.

(** [int(x)] for a float [x]. *)
Definition int_of_float (x : Float.float) : result Z :=
  match Float.trunc x with
  | Some z => Ok z
  | None =>
      match x with
      | S754_nan => Raise (ValueError "cannot convert float NaN to integer")
      | _ => Raise (OverflowError "cannot convert float infinity to integer")
      end
  end.

(* ===================================================================== *)
(** ** Data model *)
(* ===================================================================== *)

(** The dictionary that [get_column_stats] builds per column.  The keys
    ["min"], ["max"] and ["avg"] exist for numeric columns only and hold
    [None] when the aggregate is NULL; [null_count] is a SUM, NULL on a table
    without rows. *)
Record stat : Type := mkStat {
  column : string;
  data_type : string;
  is_nullable : bool;
  min : option Float.float;
  max : option Float.float;
  avg : option Float.float;
  total_count : Z;
  null_count : option Z;
  distinct_count : Z;
  is_numeric : bool
}.

(** The four expectations the profiler builds. *)
Inductive expectation : Type :=
| ExpectColumnValuesToNotBeNull (column : string)
| ExpectColumnValuesToBeBetween (column : string) (min_value max_value : Float.float)
| ExpectColumnValuesToBeUnique (column : string)
| ExpectTableRowCountToBeBetween (min_value max_value : Z).

Definition expectation_type (e : expectation) : string :=
  match e with
  | ExpectColumnValuesToNotBeNull _ => "expect_column_values_to_not_be_null"
  | ExpectColumnValuesToBeBetween _ _ _ => "expect_column_values_to_be_between"
  | ExpectColumnValuesToBeUnique _ => "expect_column_values_to_be_unique"
  | ExpectTableRowCountToBeBetween _ _ => "expect_table_row_count_to_be_between"
  end.

(** The database, as the three queries of [get_column_stats] see it.  A
    numeric row is (MIN, MAX, AVG, COUNT( * ), SUM of nulls, COUNT(DISTINCT)),
    the aggregates already converted by [float(...)]. *)
Record Engine : Type := mkEngine {
  connect : unit + string;
  columns_query : string -> list (string * string * string) + string;
  numeric_query :
    string -> string ->
    (option Float.float * option Float.float * option Float.float
     * Z * option Z * Z) + string;
  basic_query : string -> string -> (Z * option Z * Z) + string
}.

(** An expectation suite as the profiler uses it, over the state [G] of the
    project context: [suite.add_expectation(e)] for an expectation [e] that
    is built in the same statement; the construction or the addition may
    raise. *)
Record SuiteAPI (G : Type) : Type := mkSuiteAPI {
  Suite : Type;
  add_expectation : Suite -> expectation -> API G unit
}.

(** The rest of the Great Expectations API that the profiler calls. *)
Record Framework (G : Type) : Type := mkFramework {
  suite_api :> SuiteAPI G;
  get_context : API G unit;
  create_engine : string -> Engine + string;
  suites_add : string -> API G (Suite suite_api);
  suites_delete : string -> API G unit;
  suites_all : API G (list (string * Z));
  expectations : Suite suite_api -> G -> list expectation
}.

(** [os.environ.get(key, default)] *)
Definition environ_get (environ : string -> option string) (key default : string) : string :=
  match environ key with
  | Some v => v
  | None => default
  end.

(* ===================================================================== *)
(** ** profile_data.py *)
(* ===================================================================== *)

Module profile_data.

Definition get_connection_string (environ : string -> option string) : string :=
  let host := environ_get environ "GX_DATASOURCE_HOST" "postgres" in
  let port := environ_get environ "GX_DATASOURCE_PORT" "5432" in
  let user := environ_get environ "GX_DATASOURCE_USER" "postgres" in
  let password := environ_get environ "GX_DATASOURCE_PASSWORD" "postgres" in
  let database := environ_get environ "GX_DATASOURCE_DATABASE" "tpcc" in
  ("postgresql+psycopg2://" ++ user ++ ":" ++ password ++ "@" ++ host ++ ":"
     ++ port ++ "/" ++ database)%string.

Definition numeric_types : list string :=
  ["integer"; "smallint"; "bigint"; "numeric"; "real"; "double precision"].

Definition mem (s : string) (l : list string) : bool :=
  existsb (String.eqb s) l.

Section WithWorld.
Variable W : Type.

(** One turn of the loop of [get_column_stats] over the catalog rows. *)
Definition column_stat (engine : Engine) (table_name : string)
    (row : string * string * string) : M W stat :=
  let '(col_name, data_type, is_nullable) := row in
  if mem data_type numeric_types then
    r <- attempt (numeric_query engine table_name col_name) ;;
    let '(min_val, max_val, avg_val, total_count, null_count, distinct_count) := r in
    ret (mkStat col_name data_type (String.eqb is_nullable "YES")
           min_val max_val avg_val total_count null_count distinct_count true)
  else
    r <- attempt (basic_query engine table_name col_name) ;;
    let '(total_count, null_count, distinct_count) := r in
    ret (mkStat col_name data_type (String.eqb is_nullable "YES")
           None None None total_count null_count distinct_count false).

Definition get_column_stats (engine : Engine) (table_name : string) : M W (list stat) :=
  attempt (connect engine) ;;
  columns <- attempt (columns_query engine table_name) ;;
  for_fold columns []
    (fun stats row =>
       stat <- column_stat engine table_name row ;;
       ret (stats ++ [stat])).
End WithWorld.

Section WithSuite.
Variable G : Type.
Variable F : SuiteAPI G.

(** [try: suite.add_expectation(e); expectations_added += 1
    except Exception: pass] *)
Definition try_add (suite : Suite F) (e : expectation) (expectations_added : Z)
    : M (world G) Z :=
  try_except
    (call (add_expectation F suite e) ;; ret (expectations_added + 1))
    (fun _ => ret expectations_added).

(** The body of the loop over [stats] (lines 102-148). *)
Definition column_expectations (suite : Suite F) (expectations_added : Z) (stat : stat)
    : M (world G) Z :=
  let col := column stat in
  expectations_added <-
    (match null_count stat with
     | Some 0 => try_add suite (ExpectColumnValuesToNotBeNull col) expectations_added
     | _ => ret expectations_added
     end) ;;
  expectations_added <-
    (match is_numeric stat, min stat with
     | true, Some min_val =>
         match max stat with
         | Some max_val =>
             let range_size :=
               if Float.neb max_val min_val then Float.sub max_val min_val
               else Float.mul (Float.abs max_val) lit_0_1 in
             let margin := Float.mul range_size lit_0_1 in
             let expected_min := Float.sub min_val margin in
             let expected_max := Float.add max_val margin in
             try_add suite
               (ExpectColumnValuesToBeBetween col
                  (Float.round expected_min 4) (Float.round expected_max 4))
               expectations_added
         | None =>
             raise (TypeError "unsupported operand type(s) for -: 'NoneType' and 'float'")
         end
     | _, _ => ret expectations_added
     end) ;;
  if ((distinct_count stat =? total_count stat) && (total_count stat >? 0))%bool then
    if (contains "_id" (lower col) || endswith (lower col) "id")%bool then
      try_add suite (ExpectColumnValuesToBeUnique col) expectations_added
    else ret expectations_added
  else ret expectations_added.

(** The table row count expectation (lines 150-165). *)
Definition row_count_expectation (suite : Suite F) (expectations_added : Z)
    (stats : list stat) : M (world G) Z :=
  match stats with
  | stat0 :: _ =>
      if total_count stat0 =? 0 then ret expectations_added
      else
        let row_count := total_count stat0 in
        min_rows <- lift (match int_mul_float row_count lit_0_8 with
                          | Ok x => int_of_float x | Raise e => Raise e end) ;;
        max_rows <- lift (match int_mul_float row_count lit_1_2 with
                          | Ok x => int_of_float x | Raise e => Raise e end) ;;
        try_add suite (ExpectTableRowCountToBeBetween min_rows max_rows)
          expectations_added
  | [] => ret expectations_added
  end.

Definition generate_expectations_from_stats (suite : Suite F) (stats : list stat)
    (table_name : string) : M (world G) Z :=
  expectations_added <- for_fold stats 0 (column_expectations suite) ;;
  row_count_expectation suite expectations_added stats.

End WithSuite.

Section WithFramework.
Variable G : Type.
Variable F : Framework G.

(** The listing of the discovered statistics (lines 182-191). *)
Definition show_stat (stat : stat) : M (world G) unit :=
  let col := column stat in
  if is_numeric stat then
    lo <- lift (fmt_2f (min stat)) ;;
    hi <- lift (fmt_2f (max stat)) ;;
    print [Lit "    "; Str col; Lit ": "; Str (data_type stat); Lit " [";
           lo; Lit " - "; hi; Lit "] nulls="; IntOrNone (null_count stat)]
  else
    print [Lit "    "; Str col; Lit ": "; Str (data_type stat); Lit " distinct=";
           Int (distinct_count stat); Lit " nulls="; IntOrNone (null_count stat)].

Definition already_exists (e : exn) : bool :=
  contains "already exists" (lower (str e)).

(** Creation of the suite (lines 195-203). *)
Definition create_suite (suite_name : string) : M (world G) (Suite F) :=
  try_except
    (call (suites_add F suite_name))
    (fun e =>
       if already_exists e then
         print [Lit "  Suite "; Str suite_name;
                Lit " already exists, deleting and recreating..."] ;;
         call (suites_delete F suite_name) ;;
         call (suites_add F suite_name)
       else raise e).

(** What follows the creation of the suite (lines 205-214). *)
Definition fill_suite (suite : Suite F) (stats : list stat) (table_name : string)
    : M (world G) (Suite F) :=
  count <- generate_expectations_from_stats F suite stats table_name ;;
  print [Lit "  Created "; Int count; Lit " expectations automatically"] ;;
  print [Lit "  Expectations:"] ;;
  exps <- (fun w => (w, Ok (expectations F suite (gx w)))) ;;
  for_each exps (fun exp => print [Lit "    - "; Str (expectation_type exp)]) ;;
  ret suite.

(** The collection and the listing of the statistics (lines 172-194). *)
Definition discover (engine : Engine) (table_name : string) : M (world G) (list stat) :=
  print [Lit newline; Lit (rule 50)] ;;
  print [Lit "Auto-profiling: "; Str table_name] ;;
  print [Lit (rule 50)] ;;
  print [Lit "  Querying column statistics..."] ;;
  stats <- get_column_stats engine table_name ;;
  print [Lit "  Found "; Int (Z.of_nat (List.length stats)); Lit " columns"] ;;
  for_each stats show_stat ;;
  print [Lit newline; Lit "  Generating expectations..."] ;;
  ret stats.

Definition auto_profile_table (engine : Engine)
    (datasource_name table_name asset_name suite_name : string)
    : M (world G) (Suite F) :=
  stats <- discover engine table_name ;;
  suite <- create_suite suite_name ;;
  fill_suite suite stats table_name.

Definition tables : list (string * string * string) :=
  [("warehouse", "warehouse_asset", "warehouse_auto");
   ("customer", "customer_asset", "customer_auto");
   ("orders", "orders_asset", "orders_auto");
   ("order_line", "order_line_asset", "order_line_auto");
   ("item", "item_asset", "item_auto")].

(** The loop over the tables (lines 240-247). *)
Definition profile_tables (engine : Engine) (tables : list (string * string * string))
    : M (world G) unit :=
  for_each tables
    (fun '(table_name, asset_name, suite_name) =>
       try_except
         (auto_profile_table engine "tpcc_postgres" table_name asset_name suite_name ;;
          ret tt)
         (fun e => print [Lit "  Error profiling "; Str table_name; Lit ": ";
                          Str (str e)])).

Definition main (environ : string -> option string) : M (world G) unit :=
  print [Lit (rule 60)] ;;
  print [Lit "Great Expectations Custom Auto-Profiler"] ;;
  print [Lit "Learning rules from actual data statistics"] ;;
  print [Lit (rule 60)] ;;
  let connection_string := get_connection_string environ in
  engine <- attempt (create_engine F connection_string) ;;
  print [Lit newline; Lit "Connected to PostgreSQL"] ;;
  call (get_context F) ;;
  profile_tables engine tables ;;
  print [Lit newline; Lit (rule 60)] ;;
  print [Lit "AUTO-PROFILING COMPLETE"] ;;
  print [Lit (rule 60)] ;;
  print [Lit newline; Lit "Generated expectation suites:"] ;;
  all <- call (suites_all F) ;;
  for_each all
    (fun '(name, n) =>
       print [Lit "  - "; Str name; Lit ": "; Int n; Lit " expectations"]) ;;
  print [Lit newline; Lit "Run validation with:"] ;;
  print [Lit "  python /app/scripts/run_validation.py"].

End WithFramework.

End profile_data.

(* ===================================================================== *)
(** ** run_validation.py *)
(* ===================================================================== *)

Module run_validation.

(** What the script reads of a validation result: [result.success] and
    [r.success] for each [r] of [result.results]. *)
Record validation_result : Type := mkResult {
  success : bool;
  results : list bool
}.

(** The part of the Great Expectations API that the validator calls. *)
Record Validation (G : Type) : Type := mkValidation {
  Datasource : Type;
  Asset : Type;
  BatchDefinition : Type;
  ExpectationSuite : Type;
  ValidationDefinition : Type;
  get_context : API G unit;
  data_sources_get : string -> API G Datasource;
  get_asset : Datasource -> string -> API G Asset;
  get_batch_definition : Asset -> string -> API G BatchDefinition;
  add_batch_definition_whole_table : Asset -> string -> API G BatchDefinition;
  suites_get : string -> API G ExpectationSuite;
  validation_definitions_get : string -> API G ValidationDefinition;
  validation_definitions_add :
    string -> BatchDefinition -> ExpectationSuite -> API G ValidationDefinition;
  run : ValidationDefinition -> API G validation_result
}.

(** [sum(1 for x in l if p x)] *)
Definition count {A} (p : A -> bool) (l : list A) : Z :=
  Z.of_nat (List.length (filter p l)).

Definition is_True (s : option bool) : bool :=
  match s with Some true => true | _ => false end.
Definition is_False (s : option bool) : bool :=
  match s with Some false => true | _ => false end.
Definition is_None (s : option bool) : bool :=
  match s with None => true | _ => false end.

Section WithValidation.
Variable G : Type.
Variable V : Validation G.

Definition run_validation (datasource_name asset_name suite_name : string)
    : M (world G) (option bool * option validation_result) :=
  print [Lit newline; Lit "Validating "; Str asset_name; Lit " against ";
         Str suite_name; Lit "..."] ;;
  try_except
    (datasource <- call (data_sources_get V datasource_name) ;;
     asset <- call (get_asset V datasource asset_name) ;;
     let batch_def_name := (asset_name ++ "_batch")%string in
     batch_definition <-
       try_except
         (call (get_batch_definition V asset batch_def_name))
         (fun _ => call (add_batch_definition_whole_table V asset batch_def_name)) ;;
     suite <- call (suites_get V suite_name) ;;
     let validation_name :=
       (asset_name ++ "_" ++ suite_name ++ "_validation")%string in
     validation_definition <-
       try_except
         (call (validation_definitions_get V validation_name))
         (fun _ => call (validation_definitions_add V validation_name
                           batch_definition suite)) ;;
     result <- call (run V validation_definition) ;;
     let success := success result in
     let stats := results result in
     let total := Z.of_nat (List.length stats) in
     let passed := count (fun r => r) stats in
     let failed := total - passed in
     let status := if success then "PASSED" else "FAILED" in
     print [Lit "  Status: "; Str status] ;;
     print [Lit "  Expectations: "; Int total; Lit " total, "; Int passed;
            Lit " passed, "; Int failed; Lit " failed"] ;;
     ret (Some success, Some result))
    (fun e =>
       print [Lit "  Error: "; Str (str e)] ;;
       ret (None, None)).

Definition validations : list (string * string * string) :=
  [("tpcc_postgres", "warehouse_asset", "warehouse_auto");
   ("tpcc_postgres", "customer_asset", "customer_auto");
   ("tpcc_postgres", "orders_asset", "orders_auto");
   ("tpcc_postgres", "order_line_asset", "order_line_auto");
   ("tpcc_postgres", "item_asset", "item_auto")].

(** The loop that collects [results] (lines 79-87). *)
Definition collect_results (validations : list (string * string * string))
    : M (world G) (list (string * string * option bool)) :=
  for_fold validations []
    (fun results '(datasource_name, asset_name, suite_name) =>
       try_except
         (r <- run_validation datasource_name asset_name suite_name ;;
          let '(success, result) := r in
          ret (results ++ [(asset_name, suite_name, success)]))
         (fun e =>
            print [Lit "  Skipping "; Str suite_name; Lit ": "; Str (str e)] ;;
            ret (results ++ [(asset_name, suite_name, None)]))).

Definition passed_of (results : list (string * string * option bool)) : Z :=
  count (fun '(_, _, s) => is_True s) results.
Definition failed_of (results : list (string * string * option bool)) : Z :=
  count (fun '(_, _, s) => is_False s) results.
Definition skipped_of (results : list (string * string * option bool)) : Z :=
  count (fun '(_, _, s) => is_None s) results.

(** The summary and the exit (lines 89-107), for the collected [results]. *)
Definition summary (results : list (string * string * option bool))
    : M (world G) unit :=
  print [Lit newline; Lit (rule 60)] ;;
  print [Lit "VALIDATION SUMMARY"] ;;
  print [Lit (rule 60)] ;;
  let passed := passed_of results in
  let failed := failed_of results in
  let skipped := skipped_of results in
  for_each results
    (fun '(asset_name, suite_name, success) =>
       let status :=
         if is_True success then "PASS"
         else if is_False success then "FAIL" else "SKIP" in
       print [Lit "  ["; Str status; Lit "] "; Str asset_name; Lit " / ";
              Str suite_name]) ;;
  print [Lit newline; Lit "Total: "; Int passed; Lit " passed, "; Int failed;
         Lit " failed, "; Int skipped; Lit " skipped"] ;;
  print [Lit (rule 60)] ;;
  if failed >? 0 then raise (SystemExit 1) else ret tt.

(** [now] is the text of [datetime.now().isoformat()]. *)
Definition main (now : string) : M (world G) unit :=
  print [Lit (rule 60)] ;;
  print [Lit "Great Expectations Validation Run"] ;;
  print [Lit "Timestamp: "; Str now] ;;
  print [Lit (rule 60)] ;;
  call (get_context V) ;;
  results <- collect_results validations ;;
  summary results.

End WithValidation.

(** The status with which the interpreter ends after [main()]. *)
Definition exit_status (r : result unit) : Z :=
  match r with
  | Ok _ => 0
  | Raise (SystemExit code) => code
  | Raise _ => 1
  end.

End run_validation.

(* ===================================================================== *)
(** ** The rules a run submits *)
(* ===================================================================== *)

(** A suite that accepts every expectation and keeps them in the order of
    submission: what a run leaves in it is the sequence of the rules that
    the run emitted. *)
Definition recorder : SuiteAPI (list expectation) :=
  {| Suite := unit;
     add_expectation := fun _ e g => (g ++ [e], inl tt) |}.

Definition recorded {A} (m : M (world (list expectation)) A) : list expectation :=
  gx (fst (m (mkWorld [] []))).

(** The rules emitted by [generate_expectations_from_stats] on [stats]. *)
Definition emitted (stats : list stat) : list expectation :=
  recorded (profile_data.generate_expectations_from_stats recorder tt stats "").

(** The rules emitted for one column, and for the table. *)
Definition column_rules (s : stat) : list expectation :=
  recorded (profile_data.column_expectations recorder tt 0 s).

Definition table_rules (stats : list stat) : list expectation :=
  recorded (profile_data.row_count_expectation recorder tt 0 stats).

(** A record as [get_column_stats] builds it from one aggregate row: MAX is
    not NULL when MIN is not. *)
Definition well_formed (s : stat) : bool :=
  match is_numeric s, min s, max s with
  | true, Some _, None => false
  | _, _, _ => true
  end.

Definition is_not_null (e : expectation) : bool :=
  match e with ExpectColumnValuesToNotBeNull _ => true | _ => false end.
Definition is_between (e : expectation) : bool :=
  match e with ExpectColumnValuesToBeBetween _ _ _ => true | _ => false end.
Definition is_unique (e : expectation) : bool :=
  match e with ExpectColumnValuesToBeUnique _ => true | _ => false end.
Definition is_row_count (e : expectation) : bool :=
  match e with ExpectTableRowCountToBeBetween _ _ => true | _ => false end.

(** The three per-column decisions, read off the code. *)
Definition not_null_rule (s : stat) : list expectation :=
  match null_count s with
  | Some 0 => [ExpectColumnValuesToNotBeNull (column s)]
  | _ => []
  end.

Definition range_bounds (min_val max_val : Float.float) : Float.float * Float.float :=
  let range_size :=
    if Float.neb max_val min_val then Float.sub max_val min_val
    else Float.mul (Float.abs max_val) lit_0_1 in
  let margin := Float.mul range_size lit_0_1 in
  (Float.round (Float.sub min_val margin) 4, Float.round (Float.add max_val margin) 4).

Definition range_rule (s : stat) : list expectation :=
  match is_numeric s, min s, max s with
  | true, Some min_val, Some max_val =>
      [ExpectColumnValuesToBeBetween (column s)
         (fst (range_bounds min_val max_val)) (snd (range_bounds min_val max_val))]
  | _, _, _ => []
  end.

Definition looks_like_id (col : string) : bool :=
  (contains "_id" (lower col) || endswith (lower col) "id")%bool.

Definition unique_rule (s : stat) : list expectation :=
  if ((distinct_count s =? total_count s) && (total_count s >? 0)
      && looks_like_id (column s))%bool
  then [ExpectColumnValuesToBeUnique (column s)] else [].

Definition type_error_sub : exn :=
  TypeError "unsupported operand type(s) for -: 'NoneType' and 'float'".

(** The rules of a well-formed column. *)
Definition per_column (s : stat) : list expectation :=
  not_null_rule s ++ range_rule s ++ unique_rule s.

(** The two bounds of the row-count rule: [int(row_count * 0.8)] and
    [int(row_count * 1.2)]. *)
Definition row_bounds (row_count : Z) : result (Z * Z) :=
  match int_mul_float row_count lit_0_8 with
  | Raise e => Raise e
  | Ok x =>
      match int_of_float x with
      | Raise e => Raise e
      | Ok min_rows =>
          match int_mul_float row_count lit_1_2 with
          | Raise e => Raise e
          | Ok y =>
              match int_of_float y with
              | Raise e => Raise e
              | Ok max_rows => Ok (min_rows, max_rows)
              end
          end
      end
  end.

(** The rules submitted by the loop over the columns, and whether the loop
    ends without raising. *)
Fixpoint columns_trace (stats : list stat) : list expectation * bool :=
  match stats with
  | [] => ([], true)
  | s :: rest =>
      if well_formed s
      then (per_column s ++ fst (columns_trace rest), snd (columns_trace rest))
      else (not_null_rule s, false)
  end.

(** The state of the framework after the submission of [rules] to [suite]. *)
Definition submit {G} (F : SuiteAPI G) (suite : Suite F) (rules : list expectation)
    (g : G) : G :=
  fold_left (fun g e => fst (add_expectation F suite e g)) rules g.

(** A record of a table without rows: the aggregates are NULL and COUNT( * )
    is zero. *)
Definition zero_row (s : stat) : bool :=
  match min s, max s, avg s, null_count s with
  | None, None, None, None => total_count s =? 0
  | _, _, _, _ => false
  end.

(** The record without its declared nullability. *)
Definition forget_nullable (s : stat) : stat :=
  mkStat (column s) (data_type s) false (min s) (max s) (avg s)
    (total_count s) (null_count s) (distinct_count s) (is_numeric s).

(** [stats[0]["total_count"]], when there is a first record. *)
Definition first_total (stats : list stat) : option Z :=
  match stats with
  | [] => None
  | stat0 :: _ => Some (total_count stat0)
  end.

(* ===================================================================== *)
(** ** Sample statistics *)
(* ===================================================================== *)

(** Table [item] with 100000 rows. *)
Definition i_id : stat :=
  mkStat "i_id" "integer" false
    (Some (Float.of_Z 1)) (Some (Float.of_Z 100000)) (Some (Float.literal 100001 2))
    100000 (Some 0) 100000 true.

Definition i_price : stat :=
  mkStat "i_price" "numeric" true
    (Some (Float.of_Z 1)) (Some (Float.of_Z 100)) (Some (Float.literal 101 2))
    100000 (Some 0) 9900 true.

Definition i_name : stat :=
  mkStat "i_name" "character varying" true None None None 100000 (Some 12) 99000 false.

Definition item_stats : list stat := [i_id; i_price; i_name].

(** Two columns of [order_line] whose values are all distinct. *)
Definition ol_o_id : stat :=
  mkStat "ol_o_id" "integer" false
    (Some (Float.of_Z 1)) (Some (Float.of_Z 1000)) (Some (Float.literal 1001 2))
    1000 (Some 0) 1000 true.

Definition ol_amount : stat :=
  mkStat "ol_amount" "numeric" true
    (Some (Float.of_Z 0)) (Some (Float.of_Z 9999)) (Some (Float.of_Z 5000))
    1000 (Some 0) 1000 true.

Definition order_line_stats : list stat := [ol_o_id; ol_amount].

(** A numeric column whose every value is 100. *)
Definition w_ytd : stat :=
  mkStat "w_ytd" "numeric" true
    (Some (Float.of_Z 100)) (Some (Float.of_Z 100)) (Some (Float.of_Z 100))
    10 (Some 0) 1 true.

(** Statistics of [orders] read while rows are inserted: the second
    aggregate query counts more rows than the first. *)
Definition o_id : stat :=
  mkStat "o_id" "integer" false
    (Some (Float.of_Z 1)) (Some (Float.of_Z 10)) (Some (Float.literal 11 2))
    10 (Some 0) 10 true.

Definition o_carrier_id : stat :=
  mkStat "o_carrier_id" "integer" true
    (Some (Float.of_Z 1)) (Some (Float.of_Z 10)) (Some (Float.of_Z 5))
    20 (Some 6) 10 true.

Definition orders_stats : list stat := [o_id; o_carrier_id].
Definition orders_stats_swapped : list stat := [o_carrier_id; o_id].

(** [item_stats] in another order that keeps the first column. *)
Definition item_stats_reordered : list stat := [i_id; i_name; i_price].

(** The columns of a table that has no row. *)
Definition empty_table_stats : list stat :=
  [mkStat "h_c_id" "integer" true None None None 0 None 0 true;
   mkStat "h_data" "character varying" true None None None 0 None 0 false].

(** [item_stats] with every column declared NOT NULL. *)
Definition item_stats_not_null : list stat :=
  [i_id;
   mkStat "i_price" "numeric" false
     (Some (Float.of_Z 1)) (Some (Float.of_Z 100)) (Some (Float.literal 101 2))
     100000 (Some 0) 9900 true;
   mkStat "i_name" "character varying" false None None None 100000 (Some 12) 99000 false].

(** The names that [results] keeps of a triple, and the names of an entry
    of [results]. *)
Definition names_of (triple : string * string * string) : string * string :=
  let '(_, asset_name, suite_name) := triple in (asset_name, suite_name).

Definition names_in (r : string * string * option bool) : string * string :=
  let '(asset_name, suite_name, _) := r in (asset_name, suite_name).

Definition outcome_of (r : string * string * option bool) : option bool :=
  let '(_, _, success) := r in success.

(** Suites kept in memory, by name, in the order of their creation. *)
Definition store : Type := list (string * list expectation).

Fixpoint lookup (name : string) (st : store) : option (list expectation) :=
  match st with
  | [] => None
  | (n, es) :: st' => if String.eqb n name then Some es else lookup name st'
  end.

Fixpoint remove (name : string) (st : store) : store :=
  match st with
  | [] => []
  | (n, es) :: st' =>
      if String.eqb n name then remove name st' else (n, es) :: remove name st'
  end.

Fixpoint append_to (name : string) (e : expectation) (st : store) : store :=
  match st with
  | [] => []
  | (n, es) :: st' =>
      if String.eqb n name then (n, es ++ [e]) :: st'
      else (n, es) :: append_to name e st'
  end.

(** The database of the sample [item] table. *)
Definition item_engine : Engine :=
  {| connect := inl tt;
     columns_query :=
       fun table_name =>
         if String.eqb table_name "item"
         then inl [("i_id", "integer", "NO"); ("i_price", "numeric", "YES");
                   ("i_name", "character varying", "YES")]
         else inl [];
     numeric_query :=
       fun table_name col_name =>
         if String.eqb col_name "i_id"
         then inl (min i_id, max i_id, avg i_id, 100000, Some 0, 100000)
         else inl (min i_price, max i_price, avg i_price, 100000, Some 0, 9900);
     basic_query := fun table_name col_name => inl (100000, Some 12, 99000) |}.

(** A framework that keeps its suites in a [store]: a suite is known by its
    name, a second suite of the same name is refused, and an expectation
    goes to the end of its suite. *)
Definition memory_suites : SuiteAPI store :=
  {| Suite := string;
     add_expectation :=
       fun name e st =>
         match lookup name st with
         | Some _ => (append_to name e st, inl tt)
         | None => (st, inr "ExpectationSuite not found")
         end |}.

Definition memory : Framework store :=
  {| suite_api := memory_suites;
     get_context := fun st => (st, inl tt);
     create_engine := fun _ => inl item_engine;
     suites_add :=
       fun name st =>
         match lookup name st with
         | Some _ =>
             (st, inr ("An ExpectationSuite named " ++ name ++ " already exists.")%string)
         | None => (st ++ [(name, [])], inl name)
         end;
     suites_delete :=
       fun name st =>
         match lookup name st with
         | Some _ => (remove name st, inl tt)
         | None => (st, inr "ExpectationSuite not found")
         end;
     suites_all :=
       fun st => (st, inl (map (fun '(n, es) => (n, Z.of_nat (List.length es))) st));
     expectations :=
       fun name st => match lookup name st with Some es => es | None => [] end |}.

(** The same framework on a project directory that cannot be written. *)
Definition read_only : Framework store :=
  {| suite_api := memory_suites;
     get_context := get_context memory;
     create_engine := create_engine memory;
     suites_add := fun name st => (st, inr "Permission denied: /app/gx/expectations");
     suites_delete := suites_delete memory;
     suites_all := suites_all memory;
     expectations := expectations memory |}.

(** A project that already holds a suite for [item], from an earlier run. *)
Definition profiled_once : world store :=
  mkWorld [("item_auto", [ExpectColumnValuesToNotBeNull "i_id";
                          ExpectTableRowCountToBeBetween 8 12])] [].

(** The world once the statistics of [item] are collected and listed. *)
Definition item_discovered (w : world store) : world store :=
  fst (profile_data.discover item_engine "item" w).

(** A validation framework with a fixed behaviour: nothing is stored yet, the
    suite [item_auto] is missing, and the data of [orders] break one rule. *)
Definition scripted : run_validation.Validation unit :=
  {| run_validation.Datasource := string;
     run_validation.Asset := string;
     run_validation.BatchDefinition := string;
     run_validation.ExpectationSuite := string;
     run_validation.ValidationDefinition := string;
     run_validation.get_context := fun g => (g, inl tt);
     run_validation.data_sources_get := fun name g => (g, inl name);
     run_validation.get_asset := fun _ name g => (g, inl name);
     run_validation.get_batch_definition :=
       fun _ name g => (g, inr "BatchDefinition not found");
     run_validation.add_batch_definition_whole_table := fun _ name g => (g, inl name);
     run_validation.suites_get :=
       fun name g =>
         if String.eqb name "item_auto"
         then (g, inr "ExpectationSuite with name item_auto was not found.")
         else (g, inl name);
     run_validation.validation_definitions_get :=
       fun name g => (g, inr "ValidationDefinition not found");
     run_validation.validation_definitions_add := fun name _ _ g => (g, inl name);
     run_validation.run :=
       fun name g =>
         if String.eqb name "orders_asset_orders_auto_validation"
         then (g, inl (run_validation.mkResult false [true; false; true]))
         else (g, inl (run_validation.mkResult true [true; true])) |}.

(* ===================================================================== *)
(** ** Rounding *)
(* ===================================================================== *)

(** What [k] right shifts leave of [m]: the quotient by [2^k], the round bit
    and the sticky bit. *)
Definition shifted (m k : Z) (mrs : shr_record) : Prop :=
  shr_m mrs = m / 2 ^ k
  /\ (shr_r mrs = true <-> 2 ^ k <= 2 * (m mod 2 ^ k))
  /\ (shr_s mrs = true <-> m mod 2 ^ k <> 0 /\ 2 * (m mod 2 ^ k) <> 2 ^ k).

(** The row counts below which [int(n * 0.8)] and [int(n * 1.2)] are the
    exact integer parts: [3 * 2^49]. *)
Definition row_count_limit : Z := 1688849860263936.

(** A table of that many rows. *)
Definition huge_table_stats : list stat :=
  [mkStat "ol_dist_info" "character" false None None None
     1688849860263936 (Some 0) 10 false].

(** The operations of [SpecFloat] are those of the core library; they are
    shown as the ones [lia] knows. *)
Ltac std_z :=
  change IntDef.Z.max with Z.max in *;
  change IntDef.Z.min with Z.min in *;
  change IntDef.Z.sub with Z.sub in *;
  change IntDef.Z.add with Z.add in *;
  change IntDef.Z.mul with Z.mul in *;
  change IntDef.Z.opp with Z.opp in *;
  change IntDef.Z.leb with Z.leb in *;
  change IntDef.Z.eqb with Z.eqb in *;
  change IntDef.Z.even with Z.even in *;
  change IntDef.Z.compare with Z.compare in *;
  change PosDef.Pos.mul with Pos.mul in *;
  change PosDef.Pos.succ with Pos.succ in *.

(** Replace the closed powers of two by their values. *)
Ltac eval_pow2 :=
  repeat match goal with
         | |- context [2 ^ ?x] =>
             let v := eval vm_compute in (2 ^ x) in
             lazymatch v with
             | Zpos _ => change (2 ^ x) with v
             end
         | H : context [2 ^ ?x] |- _ =>
             let v := eval vm_compute in (2 ^ x) in
             lazymatch v with
             | Zpos _ => change (2 ^ x) with v in H
             end
         end.

(** Case analysis on a number of digits [d] between [c] and [c + fuel - 1]. *)
Ltac by_digits d c fuel tac :=
  lazymatch fuel with
  | O => exfalso; lia
  | S ?f =>
      let Hne := fresh "Hne" in
      destruct (Z.eq_dec d c) as [-> | Hne];
      [ tac c
      | let c' := eval vm_compute in (c + 1) in by_digits d c' f tac ]
  end.

(** One case: the integer has [d] digits and is multiplied by the float of
    mantissa [mc] and exponent [ec]; [round_lemma] describes the rounded
    product and [digits_lemma] the number of digits of a mantissa. *)
Ltac scaled_case round_lemma digits_lemma n mc ec d Hd :=
  let C := eval vm_compute in (2 ^ (53 - d)) in
  let L := eval vm_compute in (2 ^ 105) in
  let P := constr:(Zpos n * C * Zpos mc) in
  let Hk := fresh "Hk" in
  assert (Hk : P < L \/ L <= P) by lia;
  destruct Hk as [Hk | Hk];
  [ rewrite (round_lemma n mc d ec 52 Hd)
  | rewrite (round_lemma n mc d ec 53 Hd) ];
  try lia;
  try (apply digits_lemma; rewrite Pos2Z.inj_mul, Z2Pos.id by lia;
       eval_pow2; lia);
  (f_equal; unfold Float.half_even; eval_pow2;
   match goal with
   | |- context [?a ?= ?b] => destruct (Z.compare_spec a b)
   end;
   try match goal with
       | |- context [Z.even ?q] => destruct (Z.even q)
       end;
   Z.to_euclidean_division_equations; lia).

Ltac run_py :=
  unfold bind, ret, raise, lift, attempt, try_except, call, print, set_gx; simpl.


(* ===================================================================== *)
(** ** init_gx.py *)
(* ===================================================================== *)

Module init_gx.

Definition get_connection_string (environ : string -> option string) : string :=
  let host := environ_get environ "GX_DATASOURCE_HOST" "localhost" in
  let port := environ_get environ "GX_DATASOURCE_PORT" "5432" in
  let user := environ_get environ "GX_DATASOURCE_USER" "postgres" in
  let password := environ_get environ "GX_DATASOURCE_PASSWORD" "postgres" in
  let database := environ_get environ "GX_DATASOURCE_DATABASE" "tpcc" in
  ("postgresql+psycopg2://" ++ user ++ ":" ++ password ++ "@" ++ host ++ ":"
     ++ port ++ "/" ++ database)%string.

(** The part of the Great Expectations API that the bootstrap calls:
    [gx.__version__], [ds.name] and [repr(ds)] of a datasource, and the calls
    that may raise. *)
Record Bootstrap (G : Type) : Type := mkBootstrap {
  Datasource : Type;
  version : string;
  name : Datasource -> string;
  repr : Datasource -> string;
  get_context : API G unit;
  data_sources_all : API G (list Datasource);
  data_sources_get : string -> API G Datasource;
  add_postgres : string -> string -> API G Datasource;
  add_table_asset : Datasource -> string -> string -> API G unit
}.

Definition tpcc_tables : list string :=
  ["warehouse"; "district"; "customer"; "history"; "orders"; "new_order";
   "order_line"; "stock"; "item"].

(** [f"{l}"] for a list [l] of objects, given their [repr]. *)
Fixpoint repr_items (items : list string) : line :=
  match items with
  | [] => []
  | [x] => [Str x]
  | x :: rest => Str x :: Lit ", " :: repr_items rest
  end.

Section WithBootstrap.
Variable G : Type.
Variable B : Bootstrap G.

(** One turn of the loop over the tables (lines 59-70). *)
Definition add_asset (datasource : Datasource B) (table_name : string)
    : M (world G) unit :=
  let asset_name := (table_name ++ "_asset")%string in
  try_except
    (call (add_table_asset B datasource asset_name table_name) ;;
     print [Lit "  Added table asset: "; Str asset_name])
    (fun e =>
       if contains "already exists" (lower (str e)) then
         print [Lit "  Table asset already exists: "; Str asset_name]
       else
         print [Lit "  Warning - could not add "; Str table_name; Lit ": ";
                Str (str e)]).

(** The datasource, looked up or created (lines 30-42). *)
Definition resolve_datasource (connection_string : string)
    : M (world G) (Datasource B) :=
  let datasource_name := "tpcc_postgres" in
  existing <- call (data_sources_all B) ;;
  let existing_datasources := map (name B) existing in
  if existsb (String.eqb datasource_name) existing_datasources then
    print [Lit "Datasource '"; Str datasource_name; Lit "' already exists"] ;;
    call (data_sources_get B datasource_name)
  else
    datasource <- call (add_postgres B datasource_name connection_string) ;;
    print [Lit "Created datasource: "; Str datasource_name] ;;
    ret datasource.

Definition init_context (environ : string -> option string) : M (world G) unit :=
  print [Lit "Initializing Great Expectations context..."] ;;
  print [Lit "GX Version: "; Str (version B)] ;;
  call (get_context B) ;;
  let connection_string := get_connection_string environ in
  print [Lit "Connecting to PostgreSQL at ";
         Str (match environ "GX_DATASOURCE_HOST" with Some h => h | None => "None" end);
         Lit "..."] ;;
  datasource <- resolve_datasource connection_string ;;
  for_each tpcc_tables (add_asset datasource) ;;
  print [Lit newline; Lit "GX initialization complete!"] ;;
  all <- call (data_sources_all B) ;;
  print ([Lit "Datasources: ["] ++ repr_items (map (repr B) all) ++ [Lit "]"]).

End WithBootstrap.

End init_gx.

(* ===================================================================== *)
(** ** Further notions *)
(* ===================================================================== *)

(** How many of [rules] the suite takes when they are submitted in order,
    from the state [g]. *)
Fixpoint accepted {G} (F : SuiteAPI G) (suite : Suite F) (rules : list expectation)
    (g : G) : Z :=
  match rules with
  | [] => 0
  | e :: rest =>
      match add_expectation F suite e g with
      | (g', inl _) => 1 + accepted F suite rest g'
      | (g', inr _) => accepted F suite rest g'
      end
  end.

(** The framework state after the attempts to add an asset for each of
    [tables], in order. *)
Definition assets_attempted {G} (B : init_gx.Bootstrap G)
    (datasource : init_gx.Datasource B) (tables : list string) (g : G) : G :=
  fold_left
    (fun g table_name =>
       fst (init_gx.add_table_asset B datasource (table_name ++ "_asset")%string
              table_name g))
    tables g.

(** A numeric record lacks an aggregate: its column holds no value. *)
Definition lacks_aggregate (s : stat) : bool :=
  (is_numeric s
   && match min s, max s with Some _, Some _ => false | _, _ => true end)%bool.

(** An environment that names the database host. *)
Definition compose_environ (key : string) : option string :=
  if String.eqb key "GX_DATASOURCE_HOST" then Some "db" else None.

(** What [get_column_stats] copies from a catalog row into its record. *)
Definition catalog_entry (row : string * string * string) : string * string * bool :=
  let '(col_name, data_type, is_nullable) := row in
  (col_name, data_type, String.eqb is_nullable "YES").

Definition stat_entry (s : stat) : string * string * bool :=
  (column s, data_type s, is_nullable s).

(** The aggregates of a record agree with its declared type: the flag
    [is_numeric] tells whether the type is one of the numeric ones, and the
    other records carry no minimum, maximum or average. *)
Definition typed (s : stat) : Prop :=
  is_numeric s = profile_data.mem (data_type s) profile_data.numeric_types
  /\ (is_numeric s = false -> min s = None /\ max s = None /\ avg s = None).

(** The statistics of a table, as [get_column_stats] returns them in any
    world. *)
Definition query_stats (engine : Engine) (table_name : string) : result (list stat) :=
  snd (profile_data.get_column_stats engine table_name tt).

Definition format_error : exn :=
  TypeError "unsupported format string passed to NoneType.__format__".

(** The database of a table [history] that has no row yet. *)
Definition empty_engine : Engine :=
  {| connect := inl tt;
     columns_query :=
       fun _ => inl [("h_c_id", "integer", "YES");
                     ("h_data", "character varying", "YES")];
     numeric_query := fun _ _ => inl (None, None, None, 0, None, 0);
     basic_query := fun _ _ => inl (0, None, 0) |}.

(** The outcome of a piece of code that submits [rules] to [suite] and adds
    the number of those the suite took to the counter [n]. *)
Definition adds {G} (F : SuiteAPI G) (suite : Suite F) (rules : list expectation)
    (n : Z) (w : world G) : world G * result Z :=
  (mkWorld (submit F suite rules (gx w)) (stdout w),
   Ok (n + accepted F suite rules (gx w))).

(** A computation lets no [SystemExit] out: what it raises is derived from
    [Exception], and an [except Exception] around it catches it. *)
Definition raises_exceptions_only {W A} (m : M W A) : Prop :=
  forall w w' e, m w = (w', Raise e) -> is_Exception e = true.

(** The lines with which the profiler starts. *)
Definition profiler_banner : list line :=
  [[Lit (rule 60)];
   [Lit "Great Expectations Custom Auto-Profiler"];
   [Lit "Learning rules from actual data statistics"];
   [Lit (rule 60)]].


(** A project without a datasource, of which the state is the list of the
    names of its table assets; an asset of a known name is refused. *)
Definition fresh_project : init_gx.Bootstrap (list string) :=
  {| init_gx.Datasource := string;
     init_gx.version := "1.3.0";
     init_gx.name := fun ds => ds;
     init_gx.repr := fun ds => ("PostgresDatasource(name='" ++ ds ++ "')")%string;
     init_gx.get_context := fun g => (g, inl tt);
     init_gx.data_sources_all := fun g => (g, inl []);
     init_gx.data_sources_get := fun _ g => (g, inr "Datasource not found");
     init_gx.add_postgres := fun name _ g => (g, inl name);
     init_gx.add_table_asset :=
       fun _ name _ g =>
         if existsb (String.eqb name) g
         then (g, inr ("Asset with name " ++ name ++ " already exists")%string)
         else (g ++ [name], inl tt) |}.

(** The lines with which the validator starts. *)
Definition validator_banner (now : string) : list line :=
  [[Lit (rule 60)];
   [Lit "Great Expectations Validation Run"];
   [Lit "Timestamp: "; Str now];
   [Lit (rule 60)]].

(** What [run_validation] prints for a validation that ran. *)
Definition verdict_lines (result : run_validation.validation_result) : list line :=
  let total := Z.of_nat (List.length (run_validation.results result)) in
  let passed := run_validation.count (fun r => r) (run_validation.results result) in
  [[Lit "  Status: ";
    Str (if run_validation.success result then "PASSED" else "FAILED")];
   [Lit "  Expectations: "; Int total; Lit " total, "; Int passed;
    Lit " passed, "; Int (total - passed); Lit " failed"]].

(** A directory that holds no project: the context cannot be opened. *)
Definition no_project : run_validation.Validation unit :=
  {| run_validation.Datasource := unit;
     run_validation.Asset := unit;
     run_validation.BatchDefinition := unit;
     run_validation.ExpectationSuite := unit;
     run_validation.ValidationDefinition := unit;
     run_validation.get_context := fun g => (g, inr "No gx directory was found here");
     run_validation.data_sources_get := fun _ g => (g, inr "no context");
     run_validation.get_asset := fun _ _ g => (g, inr "no context");
     run_validation.get_batch_definition := fun _ _ g => (g, inr "no context");
     run_validation.add_batch_definition_whole_table :=
       fun _ _ g => (g, inr "no context");
     run_validation.suites_get := fun _ g => (g, inr "no context");
     run_validation.validation_definitions_get := fun _ g => (g, inr "no context");
     run_validation.validation_definitions_add :=
       fun _ _ _ g => (g, inr "no context");
     run_validation.run := fun _ g => (g, inr "no context") |}.


(** The two ways in which [run_validation] ends. *)
Ltac verdict :=
  do 2 eexists; split; [reflexivity |];
  first
    [ left; split; [reflexivity |]; eexists; cbn [stdout];
      rewrite <- ?app_assoc; reflexivity
    | right; eexists; split; [reflexivity |]; cbn [stdout];
      rewrite <- ?app_assoc; reflexivity ].
(* ===================================================================== *)
(** ** Proofs: the monad and the recorder *)
(* ===================================================================== *)

Lemma try_add_recorder (e : expectation) (n : Z) (w : world (list expectation)) :
  profile_data.try_add recorder tt e n w
  = (mkWorld (gx w ++ [e]) (stdout w), Ok (n + 1)).
Proof. unfold profile_data.try_add. run_py. reflexivity. Qed.

Lemma column_expectations_recorder (n : Z) (s : stat) (w : world (list expectation)) :
  profile_data.column_expectations recorder tt n s w
  = if well_formed s
    then (mkWorld (gx w ++ not_null_rule s ++ range_rule s ++ unique_rule s) (stdout w),
          Ok (n + Z.of_nat (List.length (not_null_rule s ++ range_rule s ++ unique_rule s))))
    else (mkWorld (gx w ++ not_null_rule s) (stdout w), Raise type_error_sub).
Proof.
  destruct w as [g out].
  unfold profile_data.column_expectations, well_formed, not_null_rule, range_rule,
    unique_rule, looks_like_id, range_bounds.
  destruct s as [col dt nl mn mx av tc nc dc num]; simpl.
  destruct nc as [[| p | p] |]; destruct num; destruct mn as [a |];
    destruct mx as [b |];
    destruct ((dc =? tc) && (tc >? 0))%bool;
    destruct (contains "_id" (lower col) || endswith (lower col) "id")%bool;
    unfold profile_data.try_add; run_py;
    rewrite <- ?app_assoc, ?app_nil_r; simpl;
    try reflexivity; try (do 2 f_equal; lia).
Qed.

Lemma column_rules_eq (s : stat) :
  well_formed s = true -> column_rules s = per_column s.
Proof.
  intros Hwf. unfold column_rules, recorded.
  rewrite column_expectations_recorder, Hwf. reflexivity.
Qed.

Lemma columns_recorder (stats : list stat) :
  forallb well_formed stats = true ->
  forall n w,
    for_fold stats n (profile_data.column_expectations recorder tt) w
    = (mkWorld (gx w ++ flat_map per_column stats) (stdout w),
       Ok (n + Z.of_nat (List.length (flat_map per_column stats)))).
Proof.
  induction stats as [| s stats IH]; intros Hwf n w; simpl.
  - unfold ret. destruct w; simpl. rewrite app_nil_r. do 2 f_equal. lia.
  - simpl in Hwf. apply andb_prop in Hwf. destruct Hwf as [Hs Hrest].
    unfold bind at 1. rewrite column_expectations_recorder, Hs.
    rewrite (IH Hrest). simpl. fold (per_column s).
    rewrite <- app_assoc. do 2 f_equal.
    rewrite (length_app (per_column s)). lia.
Qed.

Lemma row_count_recorder (n : Z) (stats : list stat) (w : world (list expectation)) :
  profile_data.row_count_expectation recorder tt n stats w
  = match stats with
    | [] => (w, Ok n)
    | stat0 :: _ =>
        if total_count stat0 =? 0 then (w, Ok n)
        else match row_bounds (total_count stat0) with
             | Ok (lo, hi) =>
                 (mkWorld (gx w ++ [ExpectTableRowCountToBeBetween lo hi]) (stdout w),
                  Ok (n + 1))
             | Raise e => (w, Raise e)
             end
    end.
Proof.
  unfold profile_data.row_count_expectation, row_bounds.
  destruct stats as [| stat0 rest]; [reflexivity |].
  destruct (total_count stat0 =? 0); [reflexivity |].
  destruct (int_mul_float (total_count stat0) lit_0_8) as [x | e];
    [| reflexivity].
  destruct (int_of_float x) as [lo | e]; [| reflexivity].
  destruct (int_mul_float (total_count stat0) lit_1_2) as [y | e];
    [| reflexivity].
  destruct (int_of_float y) as [hi | e]; [| reflexivity].
  unfold bind, lift. rewrite try_add_recorder. reflexivity.
Qed.

Lemma table_rules_eq (stats : list stat) :
  table_rules stats
  = match stats with
    | [] => []
    | stat0 :: _ =>
        if total_count stat0 =? 0 then []
        else match row_bounds (total_count stat0) with
             | Ok (lo, hi) => [ExpectTableRowCountToBeBetween lo hi]
             | Raise _ => []
             end
    end.
Proof.
  unfold table_rules, recorded. rewrite row_count_recorder.
  destruct stats as [| stat0 rest]; [reflexivity |].
  destruct (total_count stat0 =? 0); [reflexivity |].
  destruct (row_bounds (total_count stat0)) as [[lo hi] | e]; reflexivity.
Qed.

(** On well-formed records the emitted rules are the rules of each column,
    in the order of the columns, followed by the rule of the table. *)
Lemma emitted_eq (stats : list stat) :
  forallb well_formed stats = true ->
  emitted stats = flat_map per_column stats ++ table_rules stats.
Proof.
  intros Hwf. unfold emitted, recorded, profile_data.generate_expectations_from_stats.
  unfold bind at 1. rewrite (columns_recorder _ Hwf).
  rewrite row_count_recorder, table_rules_eq. simpl.
  destruct stats as [| stat0 rest]; [simpl; rewrite ?app_nil_r; reflexivity |].
  destruct (total_count stat0 =? 0); [simpl; rewrite ?app_nil_r; reflexivity |].
  destruct (row_bounds (total_count stat0)) as [[lo hi] | e]; simpl;
    rewrite ?app_nil_r; reflexivity.
Qed.

(* ===================================================================== *)
(** ** Proofs: any suite receives the emitted rules *)
(* ===================================================================== *)

Lemma columns_trace_well_formed (stats : list stat) :
  forallb well_formed stats = true ->
  columns_trace stats = (flat_map per_column stats, true).
Proof.
  induction stats as [| s rest IH]; simpl; [reflexivity |].
  intros H. apply andb_prop in H. destruct H as [Hs Hrest].
  rewrite Hs, (IH Hrest). reflexivity.
Qed.

Section AnySuite.
Variable G : Type.
Variable F : SuiteAPI G.
Variable suite : Suite F.

Lemma submit_app (l1 l2 : list expectation) (g : G) :
  submit F suite (l1 ++ l2) g = submit F suite l2 (submit F suite l1 g).
Proof. unfold submit. apply fold_left_app. Qed.

(** A guarded submission never raises; it counts the rule when the suite
    took it. *)
Lemma try_add_any (e : expectation) (n : Z) (w : world G) :
  exists n',
    profile_data.try_add F suite e n w
    = (mkWorld (submit F suite [e] (gx w)) (stdout w), Ok n').
Proof.
  unfold profile_data.try_add, submit. run_py.
  destruct (add_expectation F suite e (gx w)) as [g [[] | msg]]; simpl;
    eexists; reflexivity.
Qed.

Lemma column_expectations_any (n : Z) (s : stat) (w : world G) :
  exists r,
    profile_data.column_expectations F suite n s w
    = (mkWorld
         (submit F suite (if well_formed s then per_column s else not_null_rule s) (gx w))
         (stdout w), r)
    /\ if well_formed s then exists n', r = Ok n' else r = Raise type_error_sub.
Proof.
  destruct w as [g out].
  unfold profile_data.column_expectations, well_formed, per_column, not_null_rule,
    range_rule, unique_rule, looks_like_id, range_bounds.
  destruct s as [col dt nl mn mx av tc nc dc num]; simpl.
  destruct nc as [[| p | p] |]; destruct num; destruct mn as [a |];
    destruct mx as [b |];
    destruct ((dc =? tc) && (tc >? 0))%bool;
    destruct (contains "_id" (lower col) || endswith (lower col) "id")%bool;
    simpl;
    unfold bind, ret, raise; simpl;
    repeat (match goal with
            | |- context [profile_data.try_add F suite ?e ?k ?w] =>
                let n' := fresh "n" in
                let H := fresh "H" in
                destruct (try_add_any e k w) as [n' H]; rewrite H; clear H; simpl
            end);
    unfold submit; simpl;
    eexists; (split; [reflexivity | try reflexivity; eexists; reflexivity]).
Qed.

Lemma columns_any (stats : list stat) :
  forall n (w : world G),
  exists r,
    for_fold stats n (profile_data.column_expectations F suite) w
    = (mkWorld (submit F suite (fst (columns_trace stats)) (gx w)) (stdout w), r)
    /\ if snd (columns_trace stats) then exists n', r = Ok n'
       else r = Raise type_error_sub.
Proof.
  induction stats as [| s rest IH]; intros n w; simpl.
  - exists (Ok n). destruct w; split; [reflexivity | now exists n].
  - destruct (column_expectations_any n s w) as [r [Hr Hs]].
    unfold bind. rewrite Hr. destruct (well_formed s); simpl.
    + destruct Hs as [n' ->].
      destruct (IH n' (mkWorld (submit F suite (per_column s) (gx w)) (stdout w)))
        as [r' [Hr' Hrest]].
      exists r'. rewrite Hr', submit_app. simpl. now split.
    + subst r. exists (Raise type_error_sub). now split.
Qed.

Lemma row_count_any (n : Z) (stats : list stat) (w : world G) :
  exists r,
    profile_data.row_count_expectation F suite n stats w
    = (mkWorld (submit F suite (table_rules stats) (gx w)) (stdout w), r).
Proof.
  rewrite table_rules_eq. unfold profile_data.row_count_expectation, row_bounds.
  destruct w as [g out].
  destruct stats as [| stat0 rest]; [eexists; reflexivity |].
  destruct (total_count stat0 =? 0); [eexists; reflexivity |].
  unfold bind, lift.
  destruct (int_mul_float (total_count stat0) lit_0_8) as [x | e];
    [| eexists; reflexivity].
  destruct (int_of_float x) as [lo | e]; [| eexists; reflexivity].
  destruct (int_mul_float (total_count stat0) lit_1_2) as [y | e];
    [| eexists; reflexivity].
  destruct (int_of_float y) as [hi | e]; [| eexists; reflexivity].
  destruct (try_add_any (ExpectTableRowCountToBeBetween lo hi) n (mkWorld g out))
    as [n' H].
  exists (Ok n'). exact H.
Qed.

End AnySuite.

Lemma submit_recorder (rules g : list expectation) :
  submit recorder tt rules g = g ++ rules.
Proof.
  revert g. induction rules as [| e rules IH]; intros g; simpl.
  - now rewrite app_nil_r.
  - unfold submit in *. simpl. rewrite IH, <- app_assoc. reflexivity.
Qed.

(** The rules emitted on any list: those of the columns up to the first
    ill-formed record, then the rule of the table when no record was. *)
Lemma emitted_trace (stats : list stat) :
  emitted stats
  = fst (columns_trace stats)
      ++ (if snd (columns_trace stats) then table_rules stats else []).
Proof.
  unfold emitted, recorded, profile_data.generate_expectations_from_stats, bind.
  destruct (columns_any recorder tt stats 0 (mkWorld [] [])) as [r [Hr Hs]].
  rewrite Hr. rewrite submit_recorder. simpl.
  destruct (snd (columns_trace stats)).
  - destruct Hs as [n' ->].
    destruct (row_count_any recorder tt n' stats
                (mkWorld (fst (columns_trace stats)) [])) as [r' Hr'].
    rewrite Hr'. simpl. now rewrite submit_recorder.
  - subst r. simpl. now rewrite app_nil_r.
Qed.

(** Whatever the suite does with them, the calls that
    [generate_expectations_from_stats] makes to it are the submissions, in
    order, of the emitted rules; nothing is printed. *)
Lemma generate_submits {G} (F : SuiteAPI G) (suite : Suite F) (stats : list stat)
    (table_name : string) (w : world G) :
  exists r,
    profile_data.generate_expectations_from_stats F suite stats table_name w
    = (mkWorld (submit F suite (emitted stats) (gx w)) (stdout w), r).
Proof.
  rewrite emitted_trace, submit_app.
  unfold profile_data.generate_expectations_from_stats, bind.
  destruct (columns_any F suite stats 0 w) as [r [Hr Hs]]. rewrite Hr.
  destruct (snd (columns_trace stats)).
  - destruct Hs as [n' ->].
    destruct (row_count_any F suite n' stats
                (mkWorld (submit F suite (fst (columns_trace stats)) (gx w)) (stdout w)))
      as [r' Hr'].
    exists r'. exact Hr'.
  - subst r. now exists (Raise type_error_sub).
Qed.

(* ===================================================================== *)
(** ** Proofs: strings *)
(* ===================================================================== *)

Lemma prefix_spec (p s : string) :
  prefix p s = true <-> exists q, s = (p ++ q)%string.
Proof.
  revert s. induction p as [| c p IH]; intros s; simpl.
  - split; [intros _; now exists s | intros _; now destruct s].
  - destruct s as [| d s].
    + split; [discriminate | intros [q Hq]; discriminate].
    + simpl. destruct (ascii_dec c d) as [-> | Hne].
      * rewrite IH. split; intros [q Hq]; exists q; [now rewrite Hq | now inversion Hq].
      * split; [discriminate | intros [q Hq]; inversion Hq; congruence].
Qed.

(** [sub in s] holds exactly when [s] is [p + sub + q] for some [p], [q]. *)
Lemma contains_spec (sub s : string) :
  contains sub s = true <-> exists p q, s = (p ++ sub ++ q)%string.
Proof.
  induction s as [| c s IH]; cbn [contains].
  - rewrite orb_false_r, prefix_spec. split.
    + intros [q Hq]. now exists EmptyString, q.
    + intros [p [q Hq]]. destruct p; [now exists q | discriminate].
  - rewrite orb_true_iff, prefix_spec, IH. split.
    + intros [[q Hq] | [p [q Hq]]].
      * now exists EmptyString, q.
      * exists (String c p), q. simpl. now rewrite Hq.
    + intros [p [q Hq]]. destruct p as [| d p]; simpl in Hq.
      * left. now exists q.
      * right. inversion Hq. now exists p, q.
Qed.

(** [s.endswith(suffix)] holds exactly when [s] is [p + suffix] for some [p]. *)
Lemma endswith_spec (s suffix : string) :
  endswith s suffix = true <-> exists p, s = (p ++ suffix)%string.
Proof.
  induction s as [| c s IH]; cbn [endswith].
  - rewrite orb_false_r, String.eqb_eq. split.
    + intros <-. now exists EmptyString.
    + intros [p Hp]. destruct p; [exact Hp | discriminate].
  - rewrite orb_true_iff, String.eqb_eq, IH. split.
    + intros [<- | [p Hp]].
      * now exists EmptyString.
      * exists (String c p). simpl. now rewrite Hp.
    + intros [p Hp]. destruct p as [| d p]; simpl in Hp.
      * left. exact Hp.
      * right. inversion Hp. now exists p.
Qed.

Example looks_like_id_ol_o_id : looks_like_id "ol_o_id" = true.
Proof. reflexivity. Qed.

Example looks_like_id_ol_amount : looks_like_id "ol_amount" = false.
Proof. reflexivity. Qed.

Example looks_like_id_upper : looks_like_id "W_ID" = true.
Proof. reflexivity. Qed.

(* ===================================================================== *)
(** ** Proofs: which rules a column gets *)
(* ===================================================================== *)

Lemma in_not_null_rule (e : expectation) (s : stat) :
  In e (not_null_rule s)
  <-> e = ExpectColumnValuesToNotBeNull (column s) /\ null_count s = Some 0.
Proof.
  unfold not_null_rule.
  destruct (null_count s) as [[| p | p] |]; simpl;
    intuition (congruence || discriminate).
Qed.

Lemma in_range_rule (e : expectation) (s : stat) :
  In e (range_rule s) -> is_between e = true.
Proof.
  unfold range_rule.
  destruct (is_numeric s), (min s), (max s); simpl; intuition; subst; reflexivity.
Qed.

Lemma in_unique_rule (e : expectation) (s : stat) :
  In e (unique_rule s)
  <-> e = ExpectColumnValuesToBeUnique (column s)
      /\ distinct_count s = total_count s /\ total_count s > 0
      /\ looks_like_id (column s) = true.
Proof.
  unfold unique_rule. rewrite Z.gtb_ltb.
  destruct (Z.eqb_spec (distinct_count s) (total_count s));
    destruct (Z.ltb_spec 0 (total_count s));
    destruct (looks_like_id (column s)); simpl;
    (split; [intros Hin | intros (K1 & K2 & K3 & K4)]);
    try contradiction; try discriminate; try lia.
  - destruct Hin as [<- | []]. repeat split; try assumption; lia.
  - left. now symmetry.
Qed.

Lemma in_table_rules (e : expectation) (stats : list stat) :
  In e (table_rules stats) -> is_row_count e = true.
Proof.
  rewrite table_rules_eq.
  destruct stats as [| stat0 rest]; simpl; [tauto |].
  destruct (total_count stat0 =? 0); simpl; [tauto |].
  destruct (row_bounds (total_count stat0)) as [[lo hi] | ex]; simpl; [| tauto].
  intros [<- | []]. reflexivity.
Qed.

Lemma in_emitted (e : expectation) (stats : list stat) :
  forallb well_formed stats = true ->
  In e (emitted stats)
  <-> (exists s, In s stats
                 /\ (In e (not_null_rule s) \/ In e (range_rule s) \/ In e (unique_rule s)))
      \/ In e (table_rules stats).
Proof.
  intros Hwf. rewrite (emitted_eq _ Hwf), in_app_iff, in_flat_map.
  unfold per_column. setoid_rewrite in_app_iff. setoid_rewrite in_app_iff.
  reflexivity.
Qed.

(* ===================================================================== *)
(** ** Proofs: float comparison and product *)
(* ===================================================================== *)

Lemma compare_cont_opp (p q : positive) :
  Pos.compare_cont Eq q p = CompOpp (Pos.compare_cont Eq p q).
Proof. symmetry. apply (Pos.compare_cont_antisym p q Eq). Qed.

Lemma SFcompare_antisym (x y : spec_float) :
  SFcompare y x = option_map CompOpp (SFcompare x y).
Proof.
  destruct x as [sx | sx | | sx mx ex], y as [sy | sy | | sy my ey]; simpl;
    try destruct sx; try destruct sy; simpl; try reflexivity;
    rewrite (Z.compare_antisym ex ey); destruct (ex ?= ey); simpl;
    try reflexivity;
    now rewrite compare_cont_opp, ?CompOpp_involutive.
Qed.

(** [x != y] is symmetric. *)
Lemma neb_sym (x y : Float.float) : Float.neb x y = Float.neb y x.
Proof.
  unfold Float.neb, Float.eqb, SFeqb. rewrite (SFcompare_antisym x y).
  destruct (SFcompare x y) as [[| |] |]; reflexivity.
Qed.

(** [x != x] holds for NaN only. *)
Lemma neb_refl (x : Float.float) :
  Float.neb x x = match x with S754_nan => true | _ => false end.
Proof.
  unfold Float.neb, Float.eqb, SFeqb.
  destruct x as [s | s | | s m e]; simpl; try destruct s; try reflexivity;
    now rewrite Z.compare_refl, Pos.compare_cont_refl.
Qed.

(** The product of two floats does not depend on their order. *)
Lemma mul_comm (x y : Float.float) : Float.mul x y = Float.mul y x.
Proof.
  unfold Float.mul.
  destruct x as [sx | sx | | sx mx ex], y as [sy | sy | | sy my ey]; simpl;
    rewrite ?(xorb_comm sx sy); try reflexivity.
  now rewrite (Pos.mul_comm mx my), (Z.add_comm ex ey).
Qed.

(* ===================================================================== *)
(** ** Proofs: rounding to 53 digits *)
(* ===================================================================== *)

(** The number of binary digits of a positive number. *)
Lemma digits2_pos_bounds (n : positive) :
  2 ^ (Zpos (digits2_pos n) - 1) <= Zpos n < 2 ^ Zpos (digits2_pos n).
Proof.
  induction n as [p IH | p IH |]; simpl digits2_pos.
  - rewrite Pos2Z.inj_succ. replace (Z.succ (Zpos (digits2_pos p)) - 1)
      with (Z.succ (Zpos (digits2_pos p) - 1)) by lia.
    rewrite !Z.pow_succ_r by lia. lia.
  - rewrite Pos2Z.inj_succ. replace (Z.succ (Zpos (digits2_pos p)) - 1)
      with (Z.succ (Zpos (digits2_pos p) - 1)) by lia.
    rewrite !Z.pow_succ_r by lia. lia.
  - simpl. lia.
Qed.

Lemma digits2_pos_unique (n : positive) (d : Z) :
  2 ^ (d - 1) <= Zpos n < 2 ^ d -> Zpos (digits2_pos n) = d.
Proof.
  intros [Hlo Hhi]. pose proof (digits2_pos_bounds n) as [Blo Bhi].
  assert (0 < d).
  { destruct (Z.leb_spec d 0) as [Hd |]; [| lia].
    assert (2 ^ d <= 2 ^ 0) by (apply Z.pow_le_mono_r; lia). simpl in *. lia. }
  destruct (Z.lt_trichotomy (Zpos (digits2_pos n)) d) as [Hlt | [Heq | Hgt]];
    [| exact Heq |].
  - assert (2 ^ Zpos (digits2_pos n) <= 2 ^ (d - 1)) by (apply Z.pow_le_mono_r; lia).
    lia.
  - assert (2 ^ d <= 2 ^ (Zpos (digits2_pos n) - 1)) by (apply Z.pow_le_mono_r; lia).
    lia.
Qed.

(** Shifting a mantissa to the left. *)
Lemma iter_xO (m p : positive) : Zpos (Pos.iter xO m p) = Zpos m * 2 ^ Zpos p.
Proof.
  induction p as [| p IH] using Pos.peano_ind.
  - simpl. lia.
  - rewrite Pos.iter_succ, Pos2Z.inj_succ, Z.pow_succ_r by lia.
    rewrite Pos2Z.inj_xO, IH. lia.
Qed.

Lemma shr_1_m (mrs : shr_record) :
  0 <= shr_m mrs ->
  shr_m (shr_1 mrs) = shr_m mrs / 2
  /\ shr_r (shr_1 mrs) = Z.odd (shr_m mrs)
  /\ shr_s (shr_1 mrs) = (shr_r mrs || shr_s mrs)%bool.
Proof.
  destruct mrs as [m r s]. simpl. intros Hm.
  destruct m as [| [p | p |] | p]; simpl; try lia; repeat split;
    try reflexivity.
  - rewrite Pos2Z.inj_xI. apply Z.div_unique with 1; lia.
  - rewrite Pos2Z.inj_xO. apply Z.div_unique with 0; lia.
Qed.

Lemma shifted_step (m k : Z) (mrs : shr_record) :
  0 <= m -> 0 <= k -> shifted m k mrs -> shifted m (k + 1) (shr_1 mrs).
Proof.
  intros Hm Hk (Hq & Hr & Hs).
  assert (HA : 0 < 2 ^ k) by (apply Z.pow_pos_nonneg; lia).
  assert (Hq0 : 0 <= shr_m mrs) by (rewrite Hq; apply Z.div_pos; lia).
  destruct (shr_1_m mrs Hq0) as (Em & Er & Es).
  unfold shifted. rewrite Em, Er, Es, Hq.
  rewrite Z.pow_add_r by lia. change (2 ^ 1) with 2.
  rewrite Z.rem_mul_r by lia.
  rewrite Z.div_div by lia.
  set (A := 2 ^ k) in *. set (rem := m mod A) in *. set (q := m / A) in *.
  assert (Hrem : 0 <= rem < A) by (apply Z.mod_pos_bound; lia).
  assert (Hb : q mod 2 = 0 \/ q mod 2 = 1) by (pose proof (Z.mod_pos_bound q 2); lia).
  assert (Hodd : Z.odd q = true <-> q mod 2 = 1).
  { rewrite Zodd_mod. destruct (Z.eqb_spec (q mod 2) 1); split; intros; try lia;
      try reflexivity; try discriminate. }
  split; [reflexivity |]. split.
  - rewrite Hodd. destruct Hb as [-> | ->]; lia.
  - rewrite orb_true_iff, Hr, Hs. destruct Hb as [-> | ->]; lia.
Qed.

Lemma shifted_iter (m : Z) (p : positive) :
  0 <= m ->
  forall k mrs, 0 <= k -> shifted m k mrs ->
                shifted m (k + Zpos p) (iter_pos shr_1 p mrs).
Proof.
  intros Hm. induction p as [p IH | p IH |]; intros k mrs Hk H; simpl.
  - replace (k + Zpos p~1) with (k + 1 + Zpos p + Zpos p) by lia.
    apply IH; [lia |]. apply IH; [lia |]. now apply shifted_step.
  - replace (k + Zpos p~0) with (k + Zpos p + Zpos p) by lia.
    apply IH; [lia |]. now apply IH.
  - now apply shifted_step.
Qed.

Lemma shifted_0 (m : Z) : shifted m 0 (Build_shr_record m false false).
Proof.
  unfold shifted. simpl. rewrite Z.div_1_r, Z.mod_1_r.
  repeat split; try lia; try discriminate.
Qed.

Lemma round_shifted (m k : Z) (mrs : shr_record) :
  0 <= m -> 0 <= k -> shifted m k mrs ->
  round_nearest_even (shr_m mrs) (loc_of_shr_record mrs) = Float.half_even m (2 ^ k).
Proof.
  intros Hm Hk (Hq & Hr & Hs). unfold Float.half_even.
  assert (HA : 0 < 2 ^ k) by (apply Z.pow_pos_nonneg; lia).
  pose proof (Z.mod_pos_bound m (2 ^ k) HA) as Hrem.
  destruct mrs as [q r s]. cbn [shr_m shr_r shr_s] in *. subst q.
  assert (Hr' : if r then 2 ^ k <= 2 * (m mod 2 ^ k) else 2 * (m mod 2 ^ k) < 2 ^ k).
  { destruct r; [now apply Hr |].
    destruct (Z.lt_ge_cases (2 * (m mod 2 ^ k)) (2 ^ k)) as [H | H]; [exact H |].
    apply Hr in H. discriminate. }
  assert (Hs' : if s then m mod 2 ^ k <> 0 /\ 2 * (m mod 2 ^ k) <> 2 ^ k
                else m mod 2 ^ k = 0 \/ 2 * (m mod 2 ^ k) = 2 ^ k).
  { destruct s; [now apply Hs |].
    destruct (Z.eq_dec (m mod 2 ^ k) 0) as [H0 | H0]; [now left |].
    destruct (Z.eq_dec (2 * (m mod 2 ^ k)) (2 ^ k)) as [H1 | H1]; [now right |].
    assert (false = true) by (apply Hs; now split). discriminate. }
  clear Hr Hs.
  destruct (Z.compare_spec (2 * (m mod 2 ^ k)) (2 ^ k)) as [E | E | E];
    destruct r, s; cbn [round_nearest_even loc_of_shr_record shr_m];
    try reflexivity; lia.
Qed.

Lemma half_even_bounds (m k : Z) :
  0 <= m -> 0 <= k ->
  m / 2 ^ k <= Float.half_even m (2 ^ k) <= m / 2 ^ k + 1.
Proof.
  intros Hm Hk. unfold Float.half_even.
  destruct (2 * (m mod 2 ^ k) ?= 2 ^ k); [destruct (Z.even _) | |]; lia.
Qed.

Lemma fexp_normal (x : Z) : -1074 <= x - 53 -> fexp 53 1024 x = x - 53.
Proof. unfold fexp, emin. std_z. lia. Qed.

(** Rounding a mantissa that has exactly 53 digits changes nothing. *)
Lemma binary_round_aux_exact (s : bool) (m : positive) (e : Z) :
  Zpos (digits2_pos m) = 53 -> -1074 <= e <= 971 ->
  binary_round_aux 53 1024 s (Zpos m) e loc_Exact = S754_finite s m e.
Proof.
  intros Hd He. unfold binary_round_aux, shr_fexp. cbn [Zdigits2]. std_z.
  rewrite Hd, fexp_normal by lia.
  replace (53 + e - 53 - e) with 0 by lia.
  cbn [shr shr_record_of_loc shr_m shr_r shr_s loc_of_shr_record round_nearest_even
         Zdigits2].
  rewrite Hd, fexp_normal by lia.
  replace (53 + e - 53 - e) with 0 by lia.
  cbn [shr shr_record_of_loc shr_m].
  destruct (Z.leb_spec e (1024 - 53)); [reflexivity | lia].
Qed.

(** Rounding a longer mantissa to 53 digits, to nearest and ties to even. *)
Lemma binary_round_aux_shift (m : positive) (e k : Z) :
  k = Zpos (digits2_pos m) - 53 -> 0 < k -> -1074 <= e + k -> e + k + 1 <= 971 ->
  binary_round_aux 53 1024 false (Zpos m) e loc_Exact
  = if Float.half_even (Zpos m) (2 ^ k) =? 2 ^ 53
    then S754_finite false (Z.to_pos (2 ^ 52)) (e + k + 1)
    else S754_finite false (Z.to_pos (Float.half_even (Zpos m) (2 ^ k))) (e + k).
Proof.
  intros Hk Hpos Hlo Hhi.
  pose proof (digits2_pos_bounds m) as [Blo Bhi].
  assert (Hd : Zpos (digits2_pos m) = k + 53) by lia.
  clear Hk. rewrite Hd in Blo, Bhi.
  replace (k + 53 - 1) with (k + 52) in Blo by lia.
  rewrite Z.pow_add_r in Blo, Bhi by lia.
  assert (HA : 0 < 2 ^ k) by (apply Z.pow_pos_nonneg; lia).
  assert (Hq : 2 ^ 52 <= Zpos m / 2 ^ k < 2 ^ 53).
  { split.
    - apply Z.div_le_lower_bound; lia.
    - apply Z.div_lt_upper_bound; lia. }
  unfold binary_round_aux, shr_fexp. cbn [Zdigits2]. std_z.
  rewrite Hd, fexp_normal by lia.
  replace (k + 53 + e - 53 - e) with k by lia.
  destruct k as [| pk | pk]; try lia.
  cbn [shr shr_record_of_loc].
  pose proof (@shifted_iter (Zpos m) pk ltac:(lia) 0 _ ltac:(lia) (shifted_0 (Zpos m)))
    as Hsh.
  change (0 + Zpos pk) with (Zpos pk) in Hsh.
  rewrite (@round_shifted (Zpos m) (Zpos pk) _ ltac:(lia) ltac:(lia) Hsh).
  pose proof (@half_even_bounds (Zpos m) (Zpos pk) ltac:(lia) ltac:(lia)) as Hb.
  set (m1 := Float.half_even (Zpos m) (2 ^ Zpos pk)) in *.
  set (e1 := e + Zpos pk) in *.
  assert (P52 : 2 ^ 52 = 4503599627370496) by reflexivity.
  assert (P53 : 2 ^ 53 = 9007199254740992) by reflexivity.
  rewrite P52, P53 in *.
  destruct (Z.eqb_spec m1 9007199254740992) as [E | E].
  - rewrite E. cbn [Zdigits2 digits2_pos Pos.succ].
    rewrite fexp_normal by lia.
    replace (54 + e1 - 53 - e1) with 1 by lia.
    cbn [shr iter_pos shr_1 shr_record_of_loc shr_m Z.to_pos].
    destruct (Z.leb_spec (e1 + 1) (1024 - 53)); [reflexivity | lia].
  - assert (Hm1 : 4503599627370496 <= m1 < 9007199254740992) by lia.
    destruct m1 as [| p1 | p1] eqn:Em1; try lia.
    cbn [Zdigits2].
    rewrite (@digits2_pos_unique p1 53)
      by (change (2 ^ (53 - 1)) with 4503599627370496;
          change (2 ^ 53) with 9007199254740992; lia).
    rewrite fexp_normal by lia.
    replace (53 + e1 - 53 - e1) with 0 by lia.
    cbn [shr shr_record_of_loc shr_m Z.to_pos].
    destruct (Z.leb_spec e1 (1024 - 53)); [reflexivity | lia].
Qed.

(** The float of a positive integer below [2^53] is the integer itself. *)
Lemma of_Z_exact (n : positive) (d : Z) :
  Zpos (digits2_pos n) = d -> d <= 53 ->
  Float.of_Z (Zpos n) = S754_finite false (Z.to_pos (Zpos n * 2 ^ (53 - d))) (d - 53).
Proof.
  intros Hd Hle.
  pose proof (digits2_pos_bounds n) as [Blo Bhi]. rewrite Hd in Blo, Bhi.
  assert (Hd1 : 1 <= d) by lia.
  unfold Float.of_Z, binary_normalize, binary_round, shl_align. std_z.
  rewrite Hd, fexp_normal by (unfold Float.prec, Float.emax; lia).
  unfold Float.prec, Float.emax.
  replace (d + 0 - 53 - 0) with (d - 53) by lia.
  destruct (d - 53) as [| p | p] eqn:E; try lia.
  - replace (53 - d) with 0 by lia. rewrite Z.mul_1_r. cbn [Z.to_pos].
    apply binary_round_aux_exact; lia.
  - assert (Hp : 53 - d = Zpos p) by lia. rewrite Hp.
    assert (Hm : Zpos (Pos.iter xO n p) = Zpos n * 2 ^ Zpos p) by apply iter_xO.
    rewrite <- Hm. cbn [Z.to_pos].
    replace (d + 0 - 53) with (Zneg p) by lia.
    apply binary_round_aux_exact; [| lia].
    apply digits2_pos_unique. rewrite Hm.
    replace 53 with (d + Zpos p) at 2 by lia.
    replace (53 - 1) with (d - 1 + Zpos p) by lia.
    rewrite !Z.pow_add_r by lia.
    assert (0 < 2 ^ Zpos p) by (apply Z.pow_pos_nonneg; lia).
    split; [apply Z.mul_le_mono_nonneg_r | apply Z.mul_lt_mono_pos_r]; lia.
Qed.

(** [int(n * c)] for an integer [n] below [2^53] and a float [c] with a full
    mantissa: the product of the mantissas, rounded to 53 digits and cut at
    the binary point. *)
Lemma trunc_mul_of_Z (n mc : positive) (d ec k : Z) :
  Zpos (digits2_pos n) = d -> d <= 53 ->
  Zpos (digits2_pos (Z.to_pos (Zpos n * 2 ^ (53 - d)) * mc)) = k + 53 ->
  0 < k -> -1074 <= d - 53 + ec + k -> d - 53 + ec + k + 1 <= 0 ->
  match int_mul_float (Zpos n) (S754_finite false mc ec) with
  | Ok x => int_of_float x
  | Raise e => Raise e
  end
  = Ok (Float.half_even (Zpos n * 2 ^ (53 - d) * Zpos mc) (2 ^ k)
        / 2 ^ (- (d - 53 + ec + k))).
Proof.
  intros Hd Hle Hk Hpos Hlo Hhi.
  assert (Hn : 0 < Zpos n * 2 ^ (53 - d)).
  { apply Z.mul_pos_pos; [lia | apply Z.pow_pos_nonneg; lia]. }
  unfold int_mul_float. rewrite (@of_Z_exact n d Hd Hle).
  unfold Float.mul, SFmul. cbn [xorb]. std_z.
  rewrite (@binary_round_aux_shift _ (d - 53 + ec) k) by lia.
  rewrite Pos2Z.inj_mul, Z2Pos.id by lia.
  set (P := Zpos n * 2 ^ (53 - d) * Zpos mc).
  set (e1 := d - 53 + ec + k) in *.
  assert (HP : 2 ^ (k + 52) <= P < 2 ^ (k + 53)).
  { pose proof (digits2_pos_bounds (Z.to_pos (Zpos n * 2 ^ (53 - d)) * mc)) as B.
    rewrite Hk, Pos2Z.inj_mul, Z2Pos.id in B by lia.
    replace (k + 53 - 1) with (k + 52) in B by lia. exact B. }
  rewrite !Z.pow_add_r in HP by lia.
  assert (HA : 0 < 2 ^ k) by (apply Z.pow_pos_nonneg; lia).
  assert (Hq : 2 ^ 52 <= P / 2 ^ k < 2 ^ 53).
  { split; [apply Z.div_le_lower_bound | apply Z.div_lt_upper_bound]; lia. }
  pose proof (@half_even_bounds P k ltac:(lia) ltac:(lia)) as Hb.
  set (m1 := Float.half_even P (2 ^ k)) in *.
  assert (P52 : 2 ^ 52 = 4503599627370496) by reflexivity.
  assert (P53 : 2 ^ 53 = 9007199254740992) by reflexivity.
  rewrite P52, P53 in *.
  assert (Hshift : forall m, 0 < m -> forall x, x <= 0 ->
             Z.shiftl m x = m / 2 ^ (- x)).
  { intros m Hm x Hx. rewrite <- (Z.opp_involutive x) at 1.
    rewrite Z.shiftl_opp_r, Z.shiftr_div_pow2 by lia. reflexivity. }
  destruct (Z.eqb_spec m1 9007199254740992) as [E | E].
  - unfold int_of_float, Float.trunc. cbn [cond_Zopp Z.to_pos].
    rewrite Hshift by lia. rewrite E. f_equal.
    replace (- e1) with (- (e1 + 1) + 1) by lia.
    rewrite Z.pow_add_r by lia. change (2 ^ 1) with 2.
    change 9007199254740992 with (4503599627370496 * 2).
    assert (0 < 2 ^ (- (e1 + 1))) by (apply Z.pow_pos_nonneg; lia).
    rewrite Z.div_mul_cancel_r by lia. reflexivity.
  - destruct m1 as [| p1 | p1] eqn:Em1; try lia.
    unfold int_of_float, Float.trunc. cbn [cond_Zopp Z.to_pos].
    rewrite Hshift by lia. reflexivity.
Qed.

Example lit_0_8_bits : lit_0_8 = S754_finite false 7205759403792794 (-53).
Proof. vm_compute. reflexivity. Qed.

Example lit_1_2_bits : lit_1_2 = S754_finite false 5404319552844595 (-52).
Proof. vm_compute. reflexivity. Qed.

Lemma digits_below_limit (n : positive) :
  Zpos n < row_count_limit -> 1 <= Zpos (digits2_pos n) <= 51.
Proof.
  intros H. pose proof (digits2_pos_bounds n) as [Blo _].
  split; [lia |].
  destruct (Z.le_gt_cases (Zpos (digits2_pos n)) 51) as [Hle | Hgt]; [exact Hle |].
  assert (2 ^ 51 <= 2 ^ (Zpos (digits2_pos n) - 1)) by (apply Z.pow_le_mono_r; lia).
  change (2 ^ 51) with 2251799813685248 in *. unfold row_count_limit in H. lia.
Qed.

Lemma int_times_0_8 (N : Z) :
  0 < N < row_count_limit ->
  match int_mul_float N lit_0_8 with
  | Ok x => int_of_float x
  | Raise e => Raise e
  end = Ok (8 * N / 10).
Proof.
  intros HN. destruct N as [| n | n]; try lia. rewrite lit_0_8_bits.
  pose proof (digits2_pos_bounds n) as B.
  pose proof (@digits_below_limit n ltac:(lia)) as Hdigits.
  remember (Zpos (digits2_pos n)) as d eqn:Hd. symmetry in Hd.
  unfold row_count_limit in HN.
  by_digits d 1 51%nat
    ltac:(fun c => eval_pow2; scaled_case (@trunc_mul_of_Z) (@digits2_pos_unique) n 7205759403792794%positive
                    (-53) c Hd).
Qed.

Lemma int_times_1_2 (N : Z) :
  0 < N < row_count_limit ->
  match int_mul_float N lit_1_2 with
  | Ok x => int_of_float x
  | Raise e => Raise e
  end = Ok (12 * N / 10).
Proof.
  intros HN. destruct N as [| n | n]; try lia. rewrite lit_1_2_bits.
  pose proof (digits2_pos_bounds n) as B.
  pose proof (@digits_below_limit n ltac:(lia)) as Hdigits.
  remember (Zpos (digits2_pos n)) as d eqn:Hd. symmetry in Hd.
  unfold row_count_limit in HN.
  by_digits d 1 51%nat
    ltac:(fun c => eval_pow2; scaled_case (@trunc_mul_of_Z) (@digits2_pos_unique) n 5404319552844595%positive
                    (-52) c Hd).
Qed.

(* ===================================================================== *)
(** ** The range rule *)
(* ===================================================================== *)

Lemma filter_between_not_null (s : stat) : filter is_between (not_null_rule s) = [].
Proof. unfold not_null_rule. now destruct (null_count s) as [[| |] |]. Qed.

Lemma filter_between_unique (s : stat) : filter is_between (unique_rule s) = [].
Proof.
  unfold unique_rule.
  now destruct ((distinct_count s =? total_count s) && (total_count s >? 0)
                && looks_like_id (column s))%bool.
Qed.

(** The range rules among the rules of a column with a minimum and a
    maximum: the one rule built from [range_bounds]. *)
Lemma column_range_rule (s : stat) (min_val max_val : Float.float) :
  is_numeric s = true -> min s = Some min_val -> max s = Some max_val ->
  filter is_between (column_rules s)
  = [ExpectColumnValuesToBeBetween (column s)
       (fst (range_bounds min_val max_val)) (snd (range_bounds min_val max_val))]
  /\ forall stats, forallb well_formed stats = true -> In s stats ->
       In (ExpectColumnValuesToBeBetween (column s)
             (fst (range_bounds min_val max_val)) (snd (range_bounds min_val max_val)))
          (emitted stats).
Proof.
  intros Hnum Hmin Hmax.
  assert (Hrule : range_rule s
                  = [ExpectColumnValuesToBeBetween (column s)
                       (fst (range_bounds min_val max_val))
                       (snd (range_bounds min_val max_val))]).
  { unfold range_rule. now rewrite Hnum, Hmin, Hmax. }
  split.
  - rewrite column_rules_eq by (unfold well_formed; now rewrite Hnum, Hmin, Hmax).
    unfold per_column.
    rewrite !filter_app, filter_between_not_null, filter_between_unique, Hrule.
    reflexivity.
  - intros stats Hwf Hs. apply (in_emitted _ _ Hwf). left. exists s.
    split; [exact Hs |]. right; left. rewrite Hrule. now left.
Qed.

(** C2. A numeric record with a minimum [min_val] and a maximum [max_val]
    gets exactly one range rule.  When [min_val != max_val] its bounds are
    [round(min_val - 0.1 * (max_val - min_val), 4)] and
    [round(max_val + 0.1 * (max_val - min_val), 4)]; when they are equal the
    span is [0.1 * abs(max_val)] and the margin 10% of that span, rounded
    alike.  The rule is among those emitted for any list of well-formed
    records that holds the record. *)
Theorem range_rule_bounds (s : stat) (min_val max_val : Float.float) :
  is_numeric s = true -> min s = Some min_val -> max s = Some max_val ->
  let span :=
    if Float.neb min_val max_val then Float.sub max_val min_val
    else Float.mul lit_0_1 (Float.abs max_val) in
  let margin := Float.mul lit_0_1 span in
  let rule :=
    ExpectColumnValuesToBeBetween (column s)
      (Float.round (Float.sub min_val margin) 4)
      (Float.round (Float.add max_val margin) 4) in
  filter is_between (column_rules s) = [rule]
  /\ forall stats, forallb well_formed stats = true -> In s stats ->
       In rule (emitted stats).
Proof.
  intros Hnum Hmin Hmax span margin rule.
  assert (Hrule : rule
                  = ExpectColumnValuesToBeBetween (column s)
                      (fst (range_bounds min_val max_val))
                      (snd (range_bounds min_val max_val))).
  { unfold rule, margin, span, range_bounds. simpl.
    rewrite (neb_sym max_val min_val).
    destruct (Float.neb min_val max_val);
      now rewrite ?(mul_comm (Float.abs max_val) lit_0_1),
                  (mul_comm _ lit_0_1). }
  rewrite Hrule. now apply column_range_rule.
Qed.

Lemma range_rule_bounds_witness :
  is_numeric i_price = true
  /\ min i_price = Some (Float.of_Z 1)
  /\ max i_price = Some (Float.of_Z 100)
  /\ filter is_between (column_rules i_price)
     = [ExpectColumnValuesToBeBetween "i_price"
          (Float.literal (-89) 10) (Float.literal 1099 10)]
  /\ In (ExpectColumnValuesToBeBetween "i_price"
           (Float.literal (-89) 10) (Float.literal 1099 10))
        (emitted item_stats).
Proof.
  do 3 (split; [reflexivity |]).
  pose proof (range_rule_bounds i_price eq_refl eq_refl eq_refl) as [H1 H2].
  split.
  - vm_compute in H1 |- *. exact H1.
  - specialize (H2 item_stats eq_refl (or_intror (or_introl eq_refl))).
    vm_compute in H2 |- *. exact H2.
Defined.

(** The spec's scenario: the rules emitted for the sample [item] table. *)
Example emitted_item_stats :
  emitted item_stats
  = [ExpectColumnValuesToNotBeNull "i_id";
     ExpectColumnValuesToBeBetween "i_id"
       (Float.literal (-99989) 10) (Float.literal 1099999 10);
     ExpectColumnValuesToBeUnique "i_id";
     ExpectColumnValuesToNotBeNull "i_price";
     ExpectColumnValuesToBeBetween "i_price"
       (Float.literal (-89) 10) (Float.literal 1099 10);
     ExpectTableRowCountToBeBetween 80000 120000].
Proof. vm_compute. reflexivity. Qed.

(* ===================================================================== *)
(** ** Columns with a single value *)
(* ===================================================================== *)

Lemma range_bounds_same (v : Float.float) :
  range_bounds v v
  = (Float.round (Float.sub v (Float.mul lit_0_1 (Float.mul lit_0_1 (Float.abs v)))) 4,
     Float.round (Float.add v (Float.mul lit_0_1 (Float.mul lit_0_1 (Float.abs v)))) 4).
Proof.
  unfold range_bounds. rewrite neb_refl.
  destruct v as [s | s | | s m e]; try reflexivity;
    now rewrite (mul_comm _ lit_0_1), (mul_comm (Float.abs _) lit_0_1).
Qed.

(** C1, as the code has it.  For a numeric record with [min = max = v] the
    one range rule has the bounds [round(v - 0.1 * (0.1 * abs(v)), 4)] and
    [round(v + 0.1 * (0.1 * abs(v)), 4)]: the span is 10% of [abs(v)] and the
    margin 10% of that span, which is 1% of [abs(v)] on each side. *)
Theorem single_value_range (s : stat) (v : Float.float) :
  is_numeric s = true -> min s = Some v -> max s = Some v ->
  filter is_between (column_rules s)
  = [ExpectColumnValuesToBeBetween (column s)
       (Float.round (Float.sub v (Float.mul lit_0_1 (Float.mul lit_0_1 (Float.abs v)))) 4)
       (Float.round (Float.add v (Float.mul lit_0_1 (Float.mul lit_0_1 (Float.abs v)))) 4)]
  /\ forall stats, forallb well_formed stats = true -> In s stats ->
       In (ExpectColumnValuesToBeBetween (column s)
             (Float.round
                (Float.sub v (Float.mul lit_0_1 (Float.mul lit_0_1 (Float.abs v)))) 4)
             (Float.round
                (Float.add v (Float.mul lit_0_1 (Float.mul lit_0_1 (Float.abs v)))) 4))
          (emitted stats).
Proof.
  intros Hnum Hmin Hmax.
  pose proof (column_range_rule s Hnum Hmin Hmax) as H.
  rewrite range_bounds_same in H. exact H.
Qed.

Lemma single_value_range_witness :
  is_numeric w_ytd = true
  /\ min w_ytd = Some (Float.of_Z 100)
  /\ max w_ytd = Some (Float.of_Z 100)
  /\ filter is_between (column_rules w_ytd)
     = [ExpectColumnValuesToBeBetween "w_ytd" (Float.of_Z 99) (Float.of_Z 101)].
Proof.
  do 3 (split; [reflexivity |]).
  pose proof (single_value_range w_ytd eq_refl eq_refl eq_refl) as [H _].
  vm_compute in H |- *. exact H.
Defined.

(** C1, as stated, fails.  The column [w_ytd] has [min = max = 100]; the
    range rule emitted for it is [[99, 101]], whereas [100 - 0.1 * abs(100)]
    is [90] and [100 + 0.1 * abs(100)] is [110]. *)
Lemma single_value_margin_is_not_ten_percent :
  is_numeric w_ytd = true
  /\ min w_ytd = Some (Float.of_Z 100)
  /\ max w_ytd = Some (Float.of_Z 100)
  /\ Float.neb (Float.of_Z 100) (Float.of_Z 0) = true
  /\ filter is_between (emitted [w_ytd])
     = [ExpectColumnValuesToBeBetween "w_ytd" (Float.of_Z 99) (Float.of_Z 101)]
  /\ Float.sub (Float.of_Z 100) (Float.mul lit_0_1 (Float.abs (Float.of_Z 100)))
     = Float.of_Z 90
  /\ Float.add (Float.of_Z 100) (Float.mul lit_0_1 (Float.abs (Float.of_Z 100)))
     = Float.of_Z 110
  /\ filter is_between (emitted [w_ytd])
     <> [ExpectColumnValuesToBeBetween "w_ytd"
           (Float.sub (Float.of_Z 100)
              (Float.mul lit_0_1 (Float.abs (Float.of_Z 100))))
           (Float.add (Float.of_Z 100)
              (Float.mul lit_0_1 (Float.abs (Float.of_Z 100))))].
Proof.
  repeat split; try (vm_compute; reflexivity).
  vm_compute. discriminate.
Qed.

(* ===================================================================== *)
(** ** The uniqueness rule *)
(* ===================================================================== *)

(** C3. On a list of well-formed column statistics, a uniqueness rule is
    emitted for a column name if and only if some record of that name has
    [distinct_count = total_count], [total_count > 0], and a lower-cased name
    that contains [_id] or ends in [id]; no uniqueness rule is ever emitted
    for a column called [ol_amount]. *)
Theorem unique_iff_key_like (stats : list stat) :
  forallb well_formed stats = true ->
  (forall c,
      In (ExpectColumnValuesToBeUnique c) (emitted stats)
      <-> exists s, In s stats /\ column s = c
                    /\ distinct_count s = total_count s /\ total_count s > 0
                    /\ (contains "_id" (lower c) = true
                        \/ endswith (lower c) "id" = true))
  /\ ~ In (ExpectColumnValuesToBeUnique "ol_amount") (emitted stats).
Proof.
  intros Hwf.
  assert (Hiff : forall c,
             In (ExpectColumnValuesToBeUnique c) (emitted stats)
             <-> exists s, In s stats /\ column s = c
                           /\ distinct_count s = total_count s /\ total_count s > 0
                           /\ (contains "_id" (lower c) = true
                               \/ endswith (lower c) "id" = true)).
  { intros c. rewrite (in_emitted _ _ Hwf). split.
    - intros [[s [Hs [H | [H | H]]]] | H].
      + apply in_not_null_rule in H. destruct H as [H _]. discriminate.
      + apply in_range_rule in H. discriminate.
      + apply in_unique_rule in H. destruct H as (H1 & H2 & H3 & H4).
        inversion H1; subst c. exists s. repeat split; try assumption.
        unfold looks_like_id in H4. now apply orb_true_iff in H4.
      + apply in_table_rules in H. discriminate.
    - intros [s (Hs & <- & H2 & H3 & H4)]. left. exists s. split; [exact Hs |].
      right; right. apply in_unique_rule. repeat split; try assumption.
      unfold looks_like_id. now apply orb_true_iff. }
  split; [exact Hiff |].
  intros H. apply Hiff in H. destruct H as [s (_ & _ & _ & _ & [H | H])];
    vm_compute in H; discriminate.
Qed.

Lemma unique_iff_key_like_witness :
  forallb well_formed order_line_stats = true
  /\ In (ExpectColumnValuesToBeUnique "ol_o_id") (emitted order_line_stats)
  /\ ~ In (ExpectColumnValuesToBeUnique "ol_amount") (emitted order_line_stats).
Proof.
  split; [reflexivity |].
  destruct (unique_iff_key_like order_line_stats eq_refl) as [Hiff Hno].
  split; [| exact Hno].
  apply Hiff. exists ol_o_id. simpl.
  repeat split; try (left; reflexivity); try reflexivity.
Defined.

(* ===================================================================== *)
(** ** The not-null rule *)
(* ===================================================================== *)

(** The not-null rule of a record is submitted before anything can raise:
    it is among the rules of the column exactly when [null_count] is [0]. *)
Lemma column_not_null_iff (s : stat) (c : string) :
  In (ExpectColumnValuesToNotBeNull c) (column_rules s)
  <-> c = column s /\ null_count s = Some 0.
Proof.
  unfold column_rules, recorded. rewrite column_expectations_recorder.
  destruct (well_formed s); simpl; rewrite ?in_app_iff; split.
  - intros [H | [H | H]].
    + apply in_not_null_rule in H. destruct H as [H1 H2]. split; congruence.
    + apply in_range_rule in H. discriminate.
    + apply in_unique_rule in H. destruct H as [H _]. discriminate.
  - intros [-> H]. left. apply in_not_null_rule. now split.
  - intros H. apply in_not_null_rule in H. destruct H as [H1 H2]. split; congruence.
  - intros [-> H]. apply in_not_null_rule. now split.
Qed.

(** C4. On a list of well-formed column statistics,
    [generate_expectations_from_stats] emits a not-null rule for a column
    name if and only if some record of that name has a [null_count] of
    exactly zero; a record whose [null_count] is positive (or [None]) yields
    no not-null rule. *)
Theorem not_null_iff_no_nulls (stats : list stat) (c : string) :
  forallb well_formed stats = true ->
  In (ExpectColumnValuesToNotBeNull c) (emitted stats)
  <-> exists s, In s stats /\ column s = c /\ null_count s = Some 0.
Proof.
  intros Hwf. rewrite (in_emitted _ _ Hwf). split.
  - intros [[s [Hs [H | [H | H]]]] | H].
    + apply in_not_null_rule in H. destruct H as [H1 H2].
      exists s. repeat split; congruence.
    + apply in_range_rule in H. discriminate.
    + apply in_unique_rule in H. destruct H as [H _]. discriminate.
    + apply in_table_rules in H. discriminate.
  - intros [s (Hs & <- & Hn)]. left. exists s. split; [exact Hs |].
    left. apply in_not_null_rule. now split.
Qed.

Lemma not_null_iff_no_nulls_witness :
  forallb well_formed item_stats = true
  /\ (In (ExpectColumnValuesToNotBeNull "i_name") (emitted item_stats)
      <-> exists s, In s item_stats /\ column s = "i_name" /\ null_count s = Some 0).
Proof.
  split; [reflexivity |].
  apply (not_null_iff_no_nulls item_stats "i_name"). reflexivity.
Defined.

(* ===================================================================== *)
(** ** The row-count rule *)
(* ===================================================================== *)

(** Below [row_count_limit] the two bounds are the exact integer parts of
    [0.8 * n] and [1.2 * n]. *)
Lemma row_bounds_exact (n : Z) :
  0 < n < row_count_limit -> row_bounds n = Ok (8 * n / 10, 12 * n / 10).
Proof.
  intros Hn. unfold row_bounds.
  pose proof (int_times_0_8 Hn) as H8. pose proof (int_times_1_2 Hn) as H12.
  destruct (int_mul_float n lit_0_8) as [x | e]; [| discriminate].
  rewrite H8.
  destruct (int_mul_float n lit_1_2) as [y | e]; [| discriminate].
  rewrite H12. reflexivity.
Qed.

Lemma filter_row_count_per_column (stats : list stat) :
  filter is_row_count (flat_map per_column stats) = [].
Proof.
  induction stats as [| s rest IH]; simpl; [reflexivity |].
  rewrite filter_app, IH, app_nil_r. unfold per_column.
  rewrite !filter_app. unfold not_null_rule, range_rule, unique_rule.
  destruct (null_count s) as [[| |] |]; destruct (is_numeric s), (min s), (max s);
    destruct ((distinct_count s =? total_count s) && (total_count s >? 0)
              && looks_like_id (column s))%bool; reflexivity.
Qed.

(** Whatever the row count, the row-count rules emitted are those of the
    table: none when it is zero or its bounds cannot be computed, else the
    one with the bounds [int(n * 0.8)] and [int(n * 1.2)]. *)
Lemma row_count_rules (stats : list stat) :
  forallb well_formed stats = true ->
  filter is_row_count (emitted stats) = table_rules stats.
Proof.
  intros Hwf. rewrite (emitted_eq _ Hwf), filter_app, filter_row_count_per_column.
  rewrite table_rules_eq. destruct stats as [| s0 rest]; [reflexivity |].
  destruct (total_count s0 =? 0); [reflexivity |].
  destruct (row_bounds (total_count s0)) as [[lo hi] | e]; reflexivity.
Qed.

(** C5, as the code has it.  For a non-empty list of well-formed records
    whose first record has the total row count [N], [0 <= N < 3 * 2^49]:
    when [N] is zero no row-count rule is emitted, otherwise exactly one is,
    with the bounds [floor(0.8 * N)] and [floor(1.2 * N)] (here the integer
    quotients of [8 * N] and [12 * N] by [10]). *)
Theorem row_count_band (stat0 : stat) (rest : list stat) :
  forallb well_formed (stat0 :: rest) = true ->
  0 <= total_count stat0 < row_count_limit ->
  filter is_row_count (emitted (stat0 :: rest))
  = if total_count stat0 =? 0 then []
    else [ExpectTableRowCountToBeBetween
            (8 * total_count stat0 / 10) (12 * total_count stat0 / 10)].
Proof.
  intros Hwf HN. rewrite (row_count_rules _ Hwf), table_rules_eq.
  destruct (Z.eqb_spec (total_count stat0) 0) as [E | E]; [reflexivity |].
  rewrite row_bounds_exact by lia. reflexivity.
Qed.

Lemma row_count_band_witness :
  forallb well_formed item_stats = true
  /\ 0 <= total_count i_id < row_count_limit
  /\ filter is_row_count (emitted item_stats)
     = [ExpectTableRowCountToBeBetween 80000 120000].
Proof.
  split; [reflexivity |]. split; [unfold row_count_limit; simpl; lia |].
  assert (HN : 0 <= total_count i_id < row_count_limit)
    by (unfold row_count_limit; simpl; lia).
  exact (row_count_band i_id [i_price; i_name] eq_refl HN).
Defined.

(** C5, as stated, fails.  For the table of [3 * 2^49] rows the lower bound
    of the emitted rule is one more than [floor(0.8 * N)]: the product
    [N * 0.8] is rounded to a double before it is cut. *)
Lemma row_count_band_breaks_at_limit :
  forallb well_formed huge_table_stats = true
  /\ first_total huge_table_stats = Some 1688849860263936
  /\ filter is_row_count (emitted huge_table_stats)
     = [ExpectTableRowCountToBeBetween 1351079888211149 2026619832316723]
  /\ 8 * 1688849860263936 / 10 = 1351079888211148
  /\ 12 * 1688849860263936 / 10 = 2026619832316723
  /\ filter is_row_count (emitted huge_table_stats)
     <> [ExpectTableRowCountToBeBetween
           (8 * 1688849860263936 / 10) (12 * 1688849860263936 / 10)].
Proof.
  repeat split; try (vm_compute; reflexivity).
  vm_compute. discriminate.
Qed.

(* ===================================================================== *)
(** ** The suite of a table *)
(* ===================================================================== *)

Lemma for_each_keeps_gx {G A} (l : list A) (body : A -> M (world G) unit) :
  (forall x w, exists w', body x w = (w', Ok tt) /\ gx w' = gx w) ->
  forall w, exists w', for_each l body w = (w', Ok tt) /\ gx w' = gx w.
Proof.
  intros Hbody. induction l as [| x l IH]; intros w; simpl.
  - now exists w.
  - unfold bind. destruct (Hbody x w) as [w1 [-> Hg]].
    destruct (IH w1) as [w2 [H2 Hg2]]. exists w2. split; [exact H2 | congruence].
Qed.

Section Profiler.
Variable G : Type.
Variable F : Framework G.

(** Filling a suite changes the project by the submission of the emitted
    rules, and by nothing else. *)
Lemma fill_suite_gx (suite : Suite F) (stats : list stat) (table_name : string)
    (w : world G) :
  gx (fst (profile_data.fill_suite F suite stats table_name w))
  = submit F suite (emitted stats) (gx w).
Proof.
  unfold profile_data.fill_suite. unfold bind at 1.
  destruct (generate_submits F suite stats table_name w) as [r ->].
  destruct r as [count | e]; [| reflexivity].
  unfold bind, print. simpl.
  match goal with
  | |- context [for_each ?l ?body ?w0] =>
      destruct (for_each_keeps_gx l body) with (w := w0) as [w1 [-> Hg]];
        [intros x w2; eexists; split; reflexivity |]
  end.
  unfold ret. simpl. exact Hg.
Qed.

Lemma create_suite_already_exists (suite_name : string) (w : world G) (g1 : G)
    (msg : string) :
  suites_add F suite_name (gx w) = (g1, inr msg) ->
  profile_data.already_exists (Error msg) = true ->
  profile_data.create_suite F suite_name w
  = (print [Lit "  Suite "; Str suite_name;
            Lit " already exists, deleting and recreating..."] ;;
     call (suites_delete F suite_name) ;;
     call (suites_add F suite_name)) (set_gx g1 w).
Proof.
  intros Hadd Hmsg. unfold profile_data.create_suite, try_except, call.
  rewrite Hadd. simpl. now rewrite Hmsg.
Qed.

Lemma create_suite_other_error (suite_name : string) (w : world G) (g1 : G)
    (msg : string) :
  suites_add F suite_name (gx w) = (g1, inr msg) ->
  profile_data.already_exists (Error msg) = false ->
  profile_data.create_suite F suite_name w = (set_gx g1 w, Raise (Error msg)).
Proof.
  intros Hadd Hmsg. unfold profile_data.create_suite, try_except, call.
  rewrite Hadd. simpl. now rewrite Hmsg.
Qed.

(** C6. Let the statistics of a table be collected and listed, and let the
    creation of its suite raise.  If the message says "already exists"
    (whatever the case of its letters), the suite of that name is deleted and
    created again, and every rule goes to the suite that the second creation
    returned: the project ends as the state [g3] reached by the re-creation,
    with the emitted rules submitted to that suite.  Otherwise the error is
    raised again by [auto_profile_table], no suite receives a rule, and the
    loop of [main] prints the error and goes on with the next table. *)
Theorem suite_replaced_or_error_logged (engine : Engine)
    (table_name asset_name suite_name : string) (stats : list stat)
    (w w0 : world G) (g1 : G) (msg : string) :
  profile_data.discover engine table_name w = (w0, Ok stats) ->
  suites_add F suite_name (gx w0) = (g1, inr msg) ->
  (contains "already exists" (lower msg) = true ->
   forall g2 g3 suite,
     suites_delete F suite_name g1 = (g2, inl tt) ->
     suites_add F suite_name g2 = (g3, inl suite) ->
     (exists w3,
         gx w3 = g3
         /\ profile_data.auto_profile_table F engine "tpcc_postgres" table_name
              asset_name suite_name w
            = profile_data.fill_suite F suite stats table_name w3)
     /\ gx (fst (profile_data.auto_profile_table F engine "tpcc_postgres" table_name
                   asset_name suite_name w))
        = submit F suite (emitted stats) g3)
  /\ (contains "already exists" (lower msg) = false ->
      profile_data.auto_profile_table F engine "tpcc_postgres" table_name
        asset_name suite_name w
      = (set_gx g1 w0, Raise (Error msg))
      /\ forall rest,
           profile_data.profile_tables F engine
             ((table_name, asset_name, suite_name) :: rest) w
           = profile_data.profile_tables F engine rest
               (mkWorld g1
                  (stdout w0
                   ++ [[Lit "  Error profiling "; Str table_name; Lit ": "; Str msg]]))).
Proof.
  intros Hdiscover Hadd. split.
  - intros Hmsg g2 g3 suite Hdel Hadd2.
    assert (Hauto :
              profile_data.auto_profile_table F engine "tpcc_postgres" table_name
                asset_name suite_name w
              = profile_data.fill_suite F suite stats table_name
                  (set_gx g3
                     (mkWorld g1
                        (stdout w0
                         ++ [[Lit "  Suite "; Str suite_name;
                              Lit " already exists, deleting and recreating..."]])))).
    { unfold profile_data.auto_profile_table. unfold bind at 1. rewrite Hdiscover.
      unfold bind at 1.
      rewrite (create_suite_already_exists _ _ Hadd Hmsg).
      unfold bind at 1 2, print, call, set_gx. simpl.
      rewrite Hdel. simpl. rewrite Hadd2. reflexivity. }
    split.
    + eexists. split; [| exact Hauto]. reflexivity.
    + rewrite Hauto, fill_suite_gx. reflexivity.
  - intros Hmsg.
    assert (Hauto :
              profile_data.auto_profile_table F engine "tpcc_postgres" table_name
                asset_name suite_name w
              = (set_gx g1 w0, Raise (Error msg))).
    { unfold profile_data.auto_profile_table. unfold bind at 1. rewrite Hdiscover.
      unfold bind at 1.
      now rewrite (create_suite_other_error _ _ Hadd Hmsg). }
    split; [exact Hauto |].
    intros rest. unfold profile_data.profile_tables. simpl.
    unfold bind at 1, try_except at 1, bind at 1. rewrite Hauto. reflexivity.
Qed.

End Profiler.

Lemma suite_replaced_or_error_logged_witness :
  (profile_data.discover item_engine "item" profiled_once
   = (item_discovered profiled_once, Ok item_stats)
   /\ suites_add memory "item_auto" (gx (item_discovered profiled_once))
      = (gx profiled_once,
         inr "An ExpectationSuite named item_auto already exists.")
   /\ gx (fst (profile_data.auto_profile_table memory item_engine "tpcc_postgres"
                 "item" "item_asset" "item_auto" profiled_once))
      = [("item_auto", emitted item_stats)])
  /\ (profile_data.discover item_engine "item" (mkWorld [] [])
      = (item_discovered (mkWorld [] []), Ok item_stats)
      /\ suites_add read_only "item_auto" (gx (item_discovered (mkWorld [] [])))
         = ([], inr "Permission denied: /app/gx/expectations")
      /\ profile_data.auto_profile_table read_only item_engine "tpcc_postgres"
           "item" "item_asset" "item_auto" (mkWorld [] [])
         = (item_discovered (mkWorld [] []),
            Raise (Error "Permission denied: /app/gx/expectations"))
      /\ profile_data.profile_tables read_only item_engine
           [("item", "item_asset", "item_auto");
            ("warehouse", "warehouse_asset", "warehouse_auto")] (mkWorld [] [])
         = profile_data.profile_tables read_only item_engine
             [("warehouse", "warehouse_asset", "warehouse_auto")]
             (mkWorld []
                (stdout (item_discovered (mkWorld [] []))
                 ++ [[Lit "  Error profiling "; Str "item"; Lit ": ";
                      Str "Permission denied: /app/gx/expectations"]]))).
Proof.
  split.
  - assert (Hd : profile_data.discover item_engine "item" profiled_once
                 = (item_discovered profiled_once, Ok item_stats))
      by (vm_compute; reflexivity).
    assert (Ha : suites_add memory "item_auto" (gx (item_discovered profiled_once))
                 = (gx profiled_once,
                    inr "An ExpectationSuite named item_auto already exists."))
      by (vm_compute; reflexivity).
    split; [exact Hd |]. split; [exact Ha |].
    destruct (suite_replaced_or_error_logged memory item_engine "item" "item_asset"
                "item_auto" profiled_once Hd Ha) as [Hreplace _].
    destruct (Hreplace eq_refl [] [("item_auto", [])] "item_auto" eq_refl eq_refl)
      as [_ Hgx].
    rewrite Hgx. vm_compute. reflexivity.
  - assert (Hd : profile_data.discover item_engine "item" (mkWorld [] [])
                 = (item_discovered (mkWorld [] []), Ok item_stats))
      by (vm_compute; reflexivity).
    assert (Ha : suites_add read_only "item_auto"
                   (gx (item_discovered (mkWorld [] [])))
                 = ([], inr "Permission denied: /app/gx/expectations"))
      by (vm_compute; reflexivity).
    split; [exact Hd |]. split; [exact Ha |].
    destruct (suite_replaced_or_error_logged read_only item_engine "item" "item_asset"
                "item_auto" (mkWorld [] []) Hd Ha) as [_ Hother].
    destruct (Hother eq_refl) as [Hauto Hloop].
    split; [exact Hauto | apply Hloop].
Defined.

(** Profiling [item] again replaces the suite: the earlier rules are gone
    and each emitted rule is there once. *)
Example reprofile_replaces :
  lookup "item_auto"
    (gx (fst (profile_data.auto_profile_table memory item_engine "tpcc_postgres"
                "item" "item_asset" "item_auto" profiled_once)))
  = Some (emitted item_stats)
  /\ gx (fst (profile_data.profile_tables memory item_engine
                [("item", "item_asset", "item_auto")]
                (fst (profile_data.profile_tables memory item_engine
                        [("item", "item_asset", "item_auto")] (mkWorld [] [])))))
     = [("item_auto", emitted item_stats)].
Proof. split; vm_compute; reflexivity. Qed.

(* ===================================================================== *)
(** ** The validator *)
(* ===================================================================== *)

Lemma for_each_returns {W A} (l : list A) (body : A -> M W unit) :
  (forall x w, exists w', body x w = (w', Ok tt)) ->
  forall w, exists w', for_each l body w = (w', Ok tt).
Proof.
  intros Hbody. induction l as [| x l IH]; intros w; simpl.
  - now exists w.
  - unfold bind. destruct (Hbody x w) as [w1 ->]. apply IH.
Qed.

Section Validator.
Variable G : Type.
Variable V : run_validation.Validation G.

(** [run_validation] always returns: whatever is raised inside is caught and
    becomes the outcome [None]. *)
Lemma run_validation_returns (datasource_name asset_name suite_name : string)
    (w : world G) :
  exists w' success result,
    run_validation.run_validation V datasource_name asset_name suite_name w
    = (w', Ok (success, result)).
Proof.
  unfold run_validation.run_validation. run_py.
  destruct (run_validation.data_sources_get V datasource_name (gx w))
    as [g1 [ds | msg]]; simpl; [| eauto].
  destruct (run_validation.get_asset V ds asset_name g1) as [g2 [a | msg]]; simpl;
    [| eauto].
  destruct (run_validation.get_batch_definition V a _ g2) as [g3 [b | msg]]; simpl.
  - destruct (run_validation.suites_get V suite_name g3) as [g4 [su | msg]]; simpl;
      [| eauto].
    destruct (run_validation.validation_definitions_get V _ g4) as [g5 [vd | msg]];
      simpl.
    + destruct (run_validation.run V vd g5) as [g6 [r | msg]]; simpl; eauto.
    + destruct (run_validation.validation_definitions_add V _ b su g5)
        as [g6 [vd | msg']]; simpl; [| eauto].
      destruct (run_validation.run V vd g6) as [g7 [r | msg']]; simpl; eauto.
  - destruct (run_validation.add_batch_definition_whole_table V a _ g3)
      as [g3' [b | msg']]; simpl; [| eauto].
    destruct (run_validation.suites_get V suite_name g3') as [g4 [su | msg']]; simpl;
      [| eauto].
    destruct (run_validation.validation_definitions_get V _ g4) as [g5 [vd | msg']];
      simpl.
    + destruct (run_validation.run V vd g5) as [g6 [r | msg']]; simpl; eauto.
    + destruct (run_validation.validation_definitions_add V _ b su g5)
        as [g6 [vd | msg'']]; simpl; [| eauto].
      destruct (run_validation.run V vd g6) as [g7 [r | msg'']]; simpl; eauto.
Qed.

Lemma collect_results_returns (triples : list (string * string * string)) :
  forall acc (w : world G),
  exists w' rs,
    for_fold triples acc
      (fun results '(datasource_name, asset_name, suite_name) =>
         try_except
           (r <- run_validation.run_validation V datasource_name asset_name suite_name ;;
            let '(success, result) := r in
            ret (results ++ [(asset_name, suite_name, success)]))
           (fun e =>
              print [Lit "  Skipping "; Str suite_name; Lit ": "; Str (str e)] ;;
              ret (results ++ [(asset_name, suite_name, None)]))) w
    = (w', Ok (acc ++ rs))
    /\ map names_in rs = map names_of triples.
Proof.
  induction triples as [| [[d a] s] rest IH]; intros acc w; simpl.
  - exists w, []. now rewrite app_nil_r.
  - destruct (run_validation_returns d a s w) as (w1 & success & result & Hrun).
    unfold bind at 1, try_except at 1, bind at 1. rewrite Hrun. unfold ret at 1.
    destruct (IH (acc ++ [(a, s, success)]) w1) as (w' & rs & Hrest & Hnames).
    exists w', ((a, s, success) :: rs). split.
    + rewrite Hrest, <- app_assoc. reflexivity.
    + simpl. now rewrite Hnames.
Qed.

End Validator.

Lemma counts_partition (results : list (string * string * option bool)) :
  run_validation.passed_of results + run_validation.failed_of results
  + run_validation.skipped_of results
  = Z.of_nat (List.length results).
Proof.
  unfold run_validation.passed_of, run_validation.failed_of,
    run_validation.skipped_of, run_validation.count.
  induction results as [| [[a s] [[|] |]] rest IH]; cbn -[Z.of_nat] in *; lia.
Qed.

Lemma failed_positive (results : list (string * string * option bool)) :
  run_validation.failed_of results > 0
  <-> exists r, In r results /\ outcome_of r = Some false.
Proof.
  unfold run_validation.failed_of, run_validation.count.
  induction results as [| [[a s] o] rest IH]; cbn -[Z.of_nat].
  - split; [lia | intros [r [[] _]]].
  - destruct o as [[|] |]; cbn -[Z.of_nat].
    + rewrite IH. split.
      * intros [r [Hr Ho]]. exists r. split; [now right | exact Ho].
      * intros [r [[<- | Hr] Ho]]; [discriminate | now exists r].
    + split; [| lia]. intros _. exists (a, s, Some false). split; [now left | reflexivity].
    + rewrite IH. split.
      * intros [r [Hr Ho]]. exists r. split; [now right | exact Ho].
      * intros [r [[<- | Hr] Ho]]; [discriminate | now exists r].
Qed.

(** The summary raises [SystemExit(1)] exactly when a failure was counted. *)
Lemma summary_result {G} (results : list (string * string * option bool))
    (w : world G) :
  snd (run_validation.summary results w)
  = if run_validation.failed_of results >? 0 then Raise (SystemExit 1) else Ok tt.
Proof.
  unfold run_validation.summary. unfold bind at 1 2 3 4. unfold print at 1 2 3. simpl.
  match goal with
  | |- context [for_each results ?body ?w0] =>
      destruct (for_each_returns results body) with (w := w0) as [w1 H1];
        [intros [[a s] o] w2; eexists; reflexivity | rewrite H1]
  end.
  unfold bind, print, ret, raise. simpl.
  now destruct (run_validation.failed_of results >? 0).
Qed.

Lemma main_after_context {G} (V : run_validation.Validation G) (now : string)
    (w : world G) (g : G) :
  run_validation.get_context V (gx w) = (g, inl tt) ->
  exists w1,
    gx w1 = g
    /\ run_validation.main V now w
       = (results <- run_validation.collect_results V run_validation.validations ;;
          run_validation.summary results) w1.
Proof.
  intros Hctx.
  unfold run_validation.main. unfold bind at 1 2 3 4 5. unfold print, call. simpl.
  rewrite Hctx. eexists. split; [| reflexivity]. reflexivity.
Qed.

(** C7. Once the context is obtained, the validator's [main] collects one
    outcome per configured triple, in order: [Some true] (pass),
    [Some false] (failure) or [None] (skip, the outcome of any exception).
    The three totals add up to the number of triples, and the process ends
    with status 1 if and only if some outcome is a failure, with status 0
    if and only if every outcome is a pass or a skip. *)
Theorem validator_exit_status {G} (V : run_validation.Validation G) (now : string)
    (w : world G) (g : G) :
  run_validation.get_context V (gx w) = (g, inl tt) ->
  exists results,
    (exists w1 w2,
        gx w1 = g
        /\ run_validation.collect_results V run_validation.validations w1
           = (w2, Ok results))
    /\ map names_in results = map names_of run_validation.validations
    /\ run_validation.passed_of results + run_validation.failed_of results
       + run_validation.skipped_of results
       = Z.of_nat (List.length run_validation.validations)
    /\ (run_validation.exit_status (snd (run_validation.main V now w)) = 1
        <-> exists r, In r results /\ outcome_of r = Some false)
    /\ (run_validation.exit_status (snd (run_validation.main V now w)) = 0
        <-> forall r, In r results -> outcome_of r = Some true \/ outcome_of r = None).
Proof.
  intros Hctx.
  destruct (main_after_context V now w Hctx) as (w1 & Hg & Hmain).
  rewrite Hmain. clear Hmain.
  destruct (collect_results_returns V run_validation.validations [] w1)
    as (w2 & results & Hcollect & Hnames).
  fold (run_validation.collect_results V run_validation.validations) in Hcollect.
  simpl app in Hcollect.
  exists results. split; [exists w1, w2; split; [exact Hg | exact Hcollect] |].
  split; [exact Hnames |]. split.
  { rewrite counts_partition. f_equal.
    rewrite <- (length_map names_in), Hnames, length_map. reflexivity. }
  unfold bind. rewrite Hcollect, summary_result.
  pose proof (failed_positive results) as Hfail.
  destruct (run_validation.failed_of results >? 0) eqn:E; simpl.
  - apply Z.gtb_gt in E. apply Hfail in E. split.
    + split; [intros _; exact E | reflexivity].
    + split; [discriminate |].
      intros Hall. destruct E as [r [Hr Ho]].
      destruct (Hall r Hr) as [H | H]; congruence.
  - assert (Hno : ~ exists r, In r results /\ outcome_of r = Some false).
    { intros Hex. apply Hfail in Hex. rewrite Z.gtb_ltb in E.
      apply Z.ltb_ge in E. lia. }
    split.
    + split; [discriminate | intros Hex; now destruct Hno].
    + split; [| reflexivity]. intros _ r Hr.
      destruct r as [[a s] [[|] |]]; simpl; [now left | | now right].
      destruct Hno. exists (a, s, Some false). now split.
Qed.

Lemma validator_exit_status_witness :
  run_validation.get_context scripted tt = (tt, inl tt)
  /\ exists results,
       map names_in results = map names_of run_validation.validations
       /\ run_validation.passed_of results + run_validation.failed_of results
          + run_validation.skipped_of results = 5
       /\ (run_validation.exit_status
             (snd (run_validation.main scripted "2026-01-01T00:00:00" (mkWorld tt [])))
           = 1
           <-> exists r, In r results /\ outcome_of r = Some false).
Proof.
  split; [reflexivity |].
  destruct (validator_exit_status scripted "2026-01-01T00:00:00" (mkWorld tt [])
              (g := tt) eq_refl)
    as (results & _ & Hnames & Hsum & Hexit & _).
  exists results. split; [exact Hnames |]. split; [exact Hsum | exact Hexit].
Defined.

(** The scripted run: three passes, one failure, one skip, status 1. *)
Example scripted_run :
  run_validation.collect_results scripted run_validation.validations (mkWorld tt [])
  = (fst (run_validation.collect_results scripted run_validation.validations
            (mkWorld tt [])),
     Ok [("warehouse_asset", "warehouse_auto", Some true);
         ("customer_asset", "customer_auto", Some true);
         ("orders_asset", "orders_auto", Some false);
         ("order_line_asset", "order_line_auto", Some true);
         ("item_asset", "item_auto", None)])
  /\ run_validation.exit_status
       (snd (run_validation.main scripted "2026-01-01T00:00:00" (mkWorld tt []))) = 1.
Proof. split; vm_compute; reflexivity. Qed.

(* ===================================================================== *)
(** ** Tables without rows *)
(* ===================================================================== *)

Lemma column_expectations_zero_row {G} (F : SuiteAPI G) (suite : Suite F)
    (n : Z) (s : stat) (w : world G) :
  zero_row s = true ->
  profile_data.column_expectations F suite n s w = (w, Ok n).
Proof.
  unfold zero_row, profile_data.column_expectations.
  destruct s as [col dt nl mn mx av tc nc dc num]; simpl.
  destruct mn, mx, av, nc; try discriminate.
  intros Htc. apply Z.eqb_eq in Htc. subst tc.
  rewrite andb_false_r. destruct num; reflexivity.
Qed.

Lemma columns_zero_row {G} (F : SuiteAPI G) (suite : Suite F) (stats : list stat) :
  forallb zero_row stats = true ->
  forall n w,
    for_fold stats n (profile_data.column_expectations F suite) w = (w, Ok n).
Proof.
  induction stats as [| s rest IH]; intros H n w; simpl; [reflexivity |].
  simpl in H. apply andb_prop in H. destruct H as [Hs Hrest].
  unfold bind. rewrite (column_expectations_zero_row _ _ _ _ _ Hs).
  apply (IH Hrest).
Qed.

(** C8. On the statistics of a table without rows (every record has
    [min], [max], [avg] and [null_count] equal to [None] and a
    [total_count] of [0]), [generate_expectations_from_stats] returns
    normally, whatever the suite does: it returns [0] and leaves the world
    untouched; in particular it emits no range rule. *)
Theorem zero_rows_total {G} (F : SuiteAPI G) (suite : Suite F) (stats : list stat)
    (table_name : string) (w : world G) :
  forallb zero_row stats = true ->
  profile_data.generate_expectations_from_stats F suite stats table_name w = (w, Ok 0)
  /\ (forall e, In e (emitted stats) -> is_between e = false).
Proof.
  intros H.
  assert (Hgen : forall G' (F' : SuiteAPI G') (suite' : Suite F') t (w' : world G'),
             profile_data.generate_expectations_from_stats F' suite' stats t w'
             = (w', Ok 0)).
  { intros G' F' suite' t w'.
    unfold profile_data.generate_expectations_from_stats, bind.
    rewrite (columns_zero_row _ _ _ H).
    destruct stats as [| s0 rest]; [reflexivity |].
    simpl in H. apply andb_prop in H. destruct H as [Hs _].
    unfold zero_row in Hs. unfold profile_data.row_count_expectation.
    destruct (min s0), (max s0), (avg s0), (null_count s0); try discriminate.
    now rewrite Hs. }
  split; [apply Hgen |].
  unfold emitted, recorded. rewrite Hgen. simpl. intros e [].
Qed.

Lemma zero_rows_total_witness :
  forallb zero_row empty_table_stats = true
  /\ profile_data.generate_expectations_from_stats recorder tt empty_table_stats
       "history" (mkWorld [] []) = (mkWorld [] [], Ok 0)
  /\ (forall e, In e (emitted empty_table_stats) -> is_between e = false).
Proof.
  split; [reflexivity |].
  apply (zero_rows_total recorder tt empty_table_stats "history" (mkWorld [] [])).
  reflexivity.
Defined.

(** The listing of [auto_profile_table] comes before the rules and is less
    tolerant: formatting the missing minimum of a numeric column raises. *)
Example empty_table_listing_raises :
  for_each empty_table_stats (@profile_data.show_stat store) (mkWorld [] [])
  = (mkWorld [] [],
     Raise (TypeError "unsupported format string passed to NoneType.__format__")).
Proof. reflexivity. Qed.

(* ===================================================================== *)
(** ** The order of the columns *)
(* ===================================================================== *)

Lemma forallb_permutation {A} (p : A -> bool) (l l' : list A) :
  Permutation l l' -> forallb p l = true -> forallb p l' = true.
Proof.
  intros HP H. apply forallb_forall. intros x Hx.
  rewrite forallb_forall in H. apply H.
  apply (Permutation_in x (Permutation_sym HP) Hx).
Qed.

Lemma flat_map_column_rules (stats : list stat) :
  forallb well_formed stats = true ->
  flat_map column_rules stats = flat_map per_column stats.
Proof.
  induction stats as [| s rest IH]; simpl; [reflexivity |].
  intros H. apply andb_prop in H. destruct H as [Hs Hrest].
  now rewrite (column_rules_eq _ Hs), (IH Hrest).
Qed.

Lemma table_rules_first_total (stats stats' : list stat) :
  first_total stats = first_total stats' -> table_rules stats = table_rules stats'.
Proof.
  rewrite !table_rules_eq.
  destruct stats as [| s rest], stats' as [| s' rest']; simpl;
    try discriminate; try reflexivity.
  intros H. inversion H as [Heq]. now rewrite Heq.
Qed.

(** C9, as the code has it.  For well-formed records, the rules emitted are
    the rules of each column, in the order of the columns, followed by the
    row-count rule of the first record.  Hence a permutation of the list
    whose first record has the same [total_count] as before (as when every
    record carries the row count of the table) emits the per-column rules
    reordered correspondingly and the same row-count rule. *)
Theorem emitted_permutation (stats stats' : list stat) :
  Permutation stats stats' ->
  forallb well_formed stats = true ->
  first_total stats = first_total stats' ->
  emitted stats = flat_map column_rules stats ++ table_rules stats
  /\ emitted stats' = flat_map column_rules stats' ++ table_rules stats
  /\ Permutation (emitted stats) (emitted stats').
Proof.
  intros HP Hwf Hfirst.
  pose proof (forallb_permutation _ HP Hwf) as Hwf'.
  assert (H1 : emitted stats = flat_map column_rules stats ++ table_rules stats).
  { now rewrite (emitted_eq _ Hwf), (flat_map_column_rules _ Hwf). }
  assert (H2 : emitted stats' = flat_map column_rules stats' ++ table_rules stats).
  { now rewrite (emitted_eq _ Hwf'), (flat_map_column_rules _ Hwf'),
      (table_rules_first_total _ _ Hfirst). }
  repeat split; [exact H1 | exact H2 |].
  rewrite H1, H2. apply Permutation_app_tail. now apply Permutation_flat_map.
Qed.

Lemma emitted_permutation_witness :
  Permutation item_stats item_stats_reordered
  /\ forallb well_formed item_stats = true
  /\ first_total item_stats = first_total item_stats_reordered
  /\ Permutation (emitted item_stats) (emitted item_stats_reordered).
Proof.
  assert (HP : Permutation item_stats item_stats_reordered).
  { unfold item_stats, item_stats_reordered. apply perm_skip. apply perm_swap. }
  split; [exact HP |]. do 2 (split; [reflexivity |]).
  apply (emitted_permutation HP eq_refl eq_refl).
Defined.

(** C9, as stated, fails.  Both records of [orders_stats] are well formed;
    the list and the swapped list are permutations of each other, yet the
    first emits the row-count rule [[8, 12]] and the second [[16, 24]]. *)
Lemma emitted_depends_on_first_column :
  Permutation orders_stats orders_stats_swapped
  /\ forallb well_formed orders_stats = true
  /\ In (ExpectTableRowCountToBeBetween 8 12) (emitted orders_stats)
  /\ In (ExpectTableRowCountToBeBetween 16 24) (emitted orders_stats_swapped)
  /\ ~ Permutation (emitted orders_stats) (emitted orders_stats_swapped).
Proof.
  split; [apply perm_swap |]. split; [reflexivity |].
  split; [vm_compute; tauto |]. split; [vm_compute; tauto |].
  intros HP.
  assert (Hin : In (ExpectTableRowCountToBeBetween 8 12) (emitted orders_stats))
    by (vm_compute; tauto).
  apply (Permutation_in _ HP) in Hin. vm_compute in Hin.
  repeat (destruct Hin as [Hin | Hin]; [discriminate |]). exact Hin.
Qed.

(* ===================================================================== *)
(** ** Declared nullability *)
(* ===================================================================== *)

Lemma column_expectations_forget_nullable {G} (F : SuiteAPI G) (suite : Suite F)
    (n : Z) (s : stat) :
  profile_data.column_expectations F suite n (forget_nullable s)
  = profile_data.column_expectations F suite n s.
Proof. reflexivity. Qed.

Lemma columns_forget_nullable {G} (F : SuiteAPI G) (suite : Suite F) (stats : list stat) :
  forall n w,
    for_fold (map forget_nullable stats) n (profile_data.column_expectations F suite) w
    = for_fold stats n (profile_data.column_expectations F suite) w.
Proof.
  induction stats as [| s rest IH]; intros n w; simpl; [reflexivity |].
  unfold bind. rewrite column_expectations_forget_nullable.
  destruct (profile_data.column_expectations F suite n s w) as [w' [n' | e]];
    [apply IH | reflexivity].
Qed.

Lemma generate_forget_nullable {G} (F : SuiteAPI G) (suite : Suite F)
    (stats : list stat) (table_name : string) (w : world G) :
  profile_data.generate_expectations_from_stats F suite (map forget_nullable stats)
    table_name w
  = profile_data.generate_expectations_from_stats F suite stats table_name w.
Proof.
  unfold profile_data.generate_expectations_from_stats, bind.
  rewrite columns_forget_nullable.
  destruct (for_fold stats 0 (profile_data.column_expectations F suite) w)
    as [w' [n | e]]; [| reflexivity].
  destruct stats as [| s0 rest]; reflexivity.
Qed.

(** C10. Two lists of statistics that differ only in the [is_nullable] flags
    of their records make [generate_expectations_from_stats] behave alike on
    every suite and world (same calls, same result), so they emit the same
    rules; and a record whose [null_count] is zero gets its not-null rule
    even when its column is declared nullable. *)
Theorem nullability_is_ignored (stats stats' : list stat) :
  map forget_nullable stats = map forget_nullable stats' ->
  (forall G (F : SuiteAPI G) (suite : Suite F) table_name (w : world G),
      profile_data.generate_expectations_from_stats F suite stats table_name w
      = profile_data.generate_expectations_from_stats F suite stats' table_name w)
  /\ emitted stats = emitted stats'
  /\ (forall s, In s stats -> forallb well_formed stats = true ->
                is_nullable s = true -> null_count s = Some 0 ->
                In (ExpectColumnValuesToNotBeNull (column s)) (emitted stats)).
Proof.
  intros Heq.
  assert (Hgen : forall G (F : SuiteAPI G) (suite : Suite F) table_name (w : world G),
             profile_data.generate_expectations_from_stats F suite stats table_name w
             = profile_data.generate_expectations_from_stats F suite stats' table_name w).
  { intros G F suite t w.
    rewrite <- (generate_forget_nullable F suite stats),
            <- (generate_forget_nullable F suite stats'), Heq.
    reflexivity. }
  split; [exact Hgen |]. split.
  - unfold emitted, recorded. now rewrite Hgen.
  - intros s Hs Hwf _ Hn. apply (in_emitted _ _ Hwf).
    left. exists s. split; [exact Hs |]. left. apply in_not_null_rule. now split.
Qed.

Lemma nullability_is_ignored_witness :
  map forget_nullable item_stats = map forget_nullable item_stats_not_null
  /\ emitted item_stats = emitted item_stats_not_null
  /\ In (ExpectColumnValuesToNotBeNull "i_price") (emitted item_stats).
Proof.
  split; [reflexivity |].
  destruct (nullability_is_ignored item_stats item_stats_not_null eq_refl)
    as (_ & Hsame & Hrule).
  split; [exact Hsame |].
  apply (Hrule i_price); try reflexivity.
  simpl. right. left. reflexivity.
Defined.


(* ===================================================================== *)
(** ** More on the scripts: connection strings *)
(* ===================================================================== *)

Lemma append_cancel_l (p a b : string) : (p ++ a = p ++ b)%string -> a = b.
Proof.
  induction p as [| c p IH]; simpl; intros H; [exact H |].
  inversion H. now apply IH.
Qed.

(** X1. The bootstrap and the profiler build the same connection string exactly
    when [GX_DATASOURCE_HOST] is set: their default hosts differ
    ([localhost] and [postgres]). *)
Theorem connection_strings_agree_iff_host (environ : string -> option string) :
  init_gx.get_connection_string environ = profile_data.get_connection_string environ
  <-> exists host, environ "GX_DATASOURCE_HOST" = Some host.
Proof.
  unfold init_gx.get_connection_string, profile_data.get_connection_string,
    environ_get.
  destruct (environ "GX_DATASOURCE_HOST") as [h |].
  - split; [intros _; now exists h | reflexivity].
  - split; [| intros [h Hh]; discriminate].
    intros H. exfalso.
    apply (append_cancel_l "postgresql+psycopg2://") in H.
    apply append_cancel_l in H. apply (append_cancel_l ":") in H.
    apply append_cancel_l in H. apply (append_cancel_l "@") in H.
    simpl in H. discriminate.
Qed.

(* ===================================================================== *)
(** ** More on the profiler: the statistics *)
(* ===================================================================== *)

Lemma column_stat_cases {W} (engine : Engine) (table_name : string)
    (row : string * string * string) (w : W) :
  exists r,
    profile_data.column_stat engine table_name row w = (w, r)
    /\ match r with
       | Ok s => stat_entry s = catalog_entry row /\ typed s
       | Raise e => exists msg, e = Error msg
       end.
Proof.
  destruct row as [[col dt] nl]. unfold profile_data.column_stat, typed, stat_entry.
  destruct (profile_data.mem dt profile_data.numeric_types) eqn:E; run_py.
  - destruct (numeric_query engine table_name col)
      as [[[[[[mn mx] av] tc] nc] dc] | msg]; simpl;
      eexists; (split; [reflexivity |]).
    + repeat split; try reflexivity; try (symmetry; exact E); discriminate.
    + now exists msg.
  - destruct (basic_query engine table_name col) as [[[tc nc] dc] | msg]; simpl;
      eexists; (split; [reflexivity |]).
    + repeat split; try reflexivity; try (symmetry; exact E).
    + now exists msg.
Qed.

Lemma columns_loop {W} (engine : Engine) (table_name : string)
    (columns : list (string * string * string)) :
  forall acc (w : W),
  exists r,
    for_fold columns acc
      (fun stats row =>
         stat <- profile_data.column_stat engine table_name row ;;
         ret (stats ++ [stat])) w = (w, r)
    /\ match r with
       | Ok stats =>
           exists new, stats = acc ++ new
                       /\ map stat_entry new = map catalog_entry columns
                       /\ Forall typed new
       | Raise e => exists msg, e = Error msg
       end.
Proof.
  induction columns as [| row rest IH]; intros acc w; simpl.
  - exists (Ok acc). split; [reflexivity |]. exists []. now rewrite app_nil_r.
  - destruct (column_stat_cases engine table_name row w) as [r [Hrow Hs]].
    unfold bind. rewrite Hrow. destruct r as [s | e].
    + unfold ret. destruct (IH (acc ++ [s]) w) as [r' [Hrest Hr]].
      exists r'. split; [exact Hrest |].
      destruct r' as [stats | e]; [| exact Hr].
      destruct Hr as (new & Hstats & Hmap & Htyped). exists (s :: new).
      destruct Hs as [Hentry Hty].
      split; [now rewrite Hstats, <- app_assoc |].
      split; [simpl; now rewrite Hentry, Hmap | now constructor].
    + exists (Raise e). now split.
Qed.

Lemma get_column_stats_cases {W} (engine : Engine) (table_name : string) (w : W) :
  exists r,
    profile_data.get_column_stats engine table_name w = (w, r)
    /\ match r with
       | Ok stats =>
           exists columns,
             columns_query engine table_name = inl columns
             /\ map stat_entry stats = map catalog_entry columns
             /\ Forall typed stats
       | Raise e => exists msg, e = Error msg
       end.
Proof.
  unfold profile_data.get_column_stats, bind, attempt.
  destruct (connect engine) as [[] | msg];
    [| exists (Raise (Error msg)); split; [reflexivity | now exists msg]].
  destruct (columns_query engine table_name) as [columns | msg];
    [| exists (Raise (Error msg)); split; [reflexivity | now exists msg]].
  destruct (columns_loop engine table_name columns [] w) as [r [Hloop Hr]].
  exists r. split; [exact Hloop |].
  destruct r as [stats | e]; [| exact Hr].
  destruct Hr as (new & -> & Hmap & Hty). exists columns. now repeat split.
Qed.

(** X2. [get_column_stats] only reads: it leaves the world as it was.  When it
    returns, its records are those of the catalog rows, in their order, each
    with the name, the type and the nullability of its row and with
    aggregates that fit the type; when it does not, it raises what the
    database driver raised, and no partial list is returned. *)
Theorem get_column_stats_shape {W} (engine : Engine) (table_name : string) (w : W) :
  exists r,
    profile_data.get_column_stats engine table_name w = (w, r)
    /\ match r with
       | Ok stats =>
           exists columns,
             columns_query engine table_name = inl columns
             /\ map stat_entry stats = map catalog_entry columns
             /\ Forall typed stats
       | Raise e => exists msg, e = Error msg
       end.
Proof. apply get_column_stats_cases. Qed.

Lemma column_stat_pure {W} (engine : Engine) (table_name : string)
    (row : string * string * string) (w : W) :
  profile_data.column_stat engine table_name row w
  = (w, snd (profile_data.column_stat engine table_name row tt)).
Proof.
  destruct row as [[col dt] nl]. unfold profile_data.column_stat.
  destruct (profile_data.mem dt profile_data.numeric_types); run_py.
  - now destruct (numeric_query engine table_name col)
      as [[[[[[mn mx] av] tc] nc] dc] | msg].
  - now destruct (basic_query engine table_name col) as [[[tc nc] dc] | msg].
Qed.

Lemma for_fold_pure {W A B} (body : forall W, B -> A -> M W B) :
  (forall acc x (w : W), body W acc x w = (w, snd (body unit acc x tt))) ->
  forall (l : list A) acc (w : W),
    for_fold l acc (body W) w = (w, snd (for_fold l acc (body unit) tt)).
Proof.
  intros Hbody l. induction l as [| x rest IH]; intros acc w; simpl;
    [reflexivity |].
  unfold bind. rewrite (Hbody acc x w).
  destruct (body unit acc x tt) as [[] [acc' | e]]; simpl; [| reflexivity].
  apply IH.
Qed.

Lemma columns_loop_pure {W} (engine : Engine) (table_name : string)
    (columns : list (string * string * string)) (acc : list stat) (w : W) :
  for_fold columns acc
    (fun stats row =>
       stat <- profile_data.column_stat engine table_name row ;;
       ret (stats ++ [stat])) w
  = (w, snd (for_fold columns acc
               (fun stats row =>
                  stat <- profile_data.column_stat engine table_name row ;;
                  ret (stats ++ [stat])) tt)).
Proof.
  apply (for_fold_pure
           (fun W stats row =>
              stat <- @profile_data.column_stat W engine table_name row ;;
              ret (stats ++ [stat]))).
  intros acc' row w'. unfold bind.
  rewrite (column_stat_pure engine table_name row w').
  rewrite (column_stat_pure engine table_name row tt). simpl.
  now destruct (snd (profile_data.column_stat engine table_name row tt)).
Qed.

(** The statistics do not depend on the world in which they are asked. *)
Lemma get_column_stats_pure {W} (engine : Engine) (table_name : string) (w : W) :
  profile_data.get_column_stats engine table_name w
  = (w, query_stats engine table_name).
Proof.
  unfold query_stats, profile_data.get_column_stats.
  unfold bind at 1 2. unfold bind at 2 3. unfold attempt.
  destruct (connect engine) as [[] | msg]; [| reflexivity].
  destruct (columns_query engine table_name) as [columns | msg]; [| reflexivity].
  rewrite (columns_loop_pure engine table_name columns [] w).
  now rewrite (columns_loop_pure engine table_name columns [] tt).
Qed.

(* ===================================================================== *)
(** ** More on the profiler: the listing *)
(* ===================================================================== *)

Lemma show_stat_cases {G} (s : stat) (w : world G) :
  if lacks_aggregate s
  then profile_data.show_stat s w = (w, Raise format_error)
  else exists l, profile_data.show_stat s w
                 = (mkWorld (gx w) (stdout w ++ [l]), Ok tt).
Proof.
  unfold lacks_aggregate, profile_data.show_stat, fmt_2f.
  destruct (is_numeric s); simpl; [| run_py; eexists; reflexivity].
  destruct (min s) as [a |], (max s) as [b |]; run_py;
    try reflexivity; eexists; reflexivity.
Qed.

Lemma listing_cases {G} (stats : list stat) :
  forall w : world G,
  exists w',
    gx w' = gx w
    /\ for_each stats (@profile_data.show_stat G) w
       = (w', if existsb lacks_aggregate stats then Raise format_error else Ok tt).
Proof.
  induction stats as [| s rest IH]; intros w; simpl.
  - now exists w.
  - pose proof (show_stat_cases s w) as Hs. unfold bind.
    destruct (lacks_aggregate s); simpl.
    + rewrite Hs. now exists w.
    + destruct Hs as [l ->].
      destruct (IH (mkWorld (gx w) (stdout w ++ [l]))) as [w' [Hg Hrest]].
      exists w'. now split.
Qed.

Lemma lacks_aggregate_well_formed (stats : list stat) :
  existsb lacks_aggregate stats = false -> forallb well_formed stats = true.
Proof.
  induction stats as [| s rest IH]; simpl; [reflexivity |].
  intros H. apply orb_false_elim in H. destruct H as [Hs Hrest].
  rewrite (IH Hrest), andb_true_r. unfold lacks_aggregate in Hs. unfold well_formed.
  destruct (is_numeric s), (min s), (max s); simpl in *; try reflexivity;
    discriminate.
Qed.

Lemma discover_cases {G} (engine : Engine) (table_name : string) (w : world G) :
  exists w',
    gx w' = gx w
    /\ profile_data.discover engine table_name w
       = (w', match query_stats engine table_name with
              | Ok stats =>
                  if existsb lacks_aggregate stats then Raise format_error
                  else Ok stats
              | Raise e => Raise e
              end).
Proof.
  unfold profile_data.discover. unfold bind at 1 2 3 4. unfold print at 1 2 3 4.
  simpl. unfold bind at 1. rewrite get_column_stats_pure.
  destruct (query_stats engine table_name) as [stats | e];
    [| eexists; split; [| reflexivity]; reflexivity].
  unfold bind at 1. unfold print at 1. simpl. unfold bind at 1.
  match goal with
  | |- context [for_each stats _ ?w0] =>
      destruct (listing_cases stats w0) as [w1 [Hg Hl]]
  end.
  rewrite Hl. destruct (existsb lacks_aggregate stats).
  - exists w1. split; [exact Hg | reflexivity].
  - unfold bind, print, ret. simpl. eexists. split; [| reflexivity]. exact Hg.
Qed.

(** X3. When the statistics of a table have been collected and listed, every
    numeric record has its minimum and its maximum: the records are well
    formed, and nothing but lines of output has changed. *)
Theorem discovered_stats_well_formed {G} (engine : Engine) (table_name : string)
    (w w' : world G) (stats : list stat) :
  profile_data.discover engine table_name w = (w', Ok stats) ->
  query_stats engine table_name = Ok stats
  /\ existsb lacks_aggregate stats = false
  /\ forallb well_formed stats = true
  /\ gx w' = gx w.
Proof.
  intros H. destruct (discover_cases engine table_name w) as [w1 [Hg Hd]].
  rewrite Hd in H. clear Hd.
  destruct (query_stats engine table_name) as [stats' | e]; [| discriminate].
  destruct (existsb lacks_aggregate stats') eqn:E; [discriminate |].
  inversion H; subst. repeat split; try assumption.
  now apply lacks_aggregate_well_formed.
Qed.

(** X4. A table with a numeric column that holds no value (a table without rows,
    a column of NULLs) is not profiled: the listing of its statistics raises
    a [TypeError], [auto_profile_table] raises it before it asks for a suite,
    so the project is left as it was, and the loop of [main] prints the
    error and goes on with the next table. *)
Theorem null_aggregate_blocks_profiling {G} (F : Framework G) (engine : Engine)
    (table_name asset_name suite_name : string) (stats : list stat) (w : world G) :
  query_stats engine table_name = Ok stats ->
  existsb lacks_aggregate stats = true ->
  snd (profile_data.auto_profile_table F engine "tpcc_postgres" table_name
         asset_name suite_name w) = Raise format_error
  /\ gx (fst (profile_data.auto_profile_table F engine "tpcc_postgres" table_name
                asset_name suite_name w)) = gx w
  /\ forall rest,
     exists w',
       gx w' = gx w
       /\ profile_data.profile_tables F engine
            ((table_name, asset_name, suite_name) :: rest) w
          = profile_data.profile_tables F engine rest w'.
Proof.
  intros Hq Hlack.
  destruct (discover_cases engine table_name w) as [w1 [Hg Hd]].
  rewrite Hq, Hlack in Hd.
  assert (Hauto : profile_data.auto_profile_table F engine "tpcc_postgres" table_name
                    asset_name suite_name w = (w1, Raise format_error)).
  { unfold profile_data.auto_profile_table, bind. now rewrite Hd. }
  rewrite Hauto. simpl. repeat split; try assumption.
  intros rest. unfold profile_data.profile_tables. simpl.
  unfold bind at 1, try_except at 1, bind at 1. rewrite Hauto. simpl.
  unfold print at 1. eexists. split; [| reflexivity]. exact Hg.
Qed.

Lemma null_aggregate_blocks_profiling_witness :
  query_stats empty_engine "history" = Ok empty_table_stats
  /\ existsb lacks_aggregate empty_table_stats = true
  /\ snd (profile_data.auto_profile_table memory empty_engine "tpcc_postgres"
            "history" "history_asset" "history_auto" (mkWorld [] []))
     = Raise format_error
  /\ gx (fst (profile_data.auto_profile_table memory empty_engine "tpcc_postgres"
                "history" "history_asset" "history_auto" (mkWorld [] []))) = [].
Proof.
  split; [reflexivity |]. split; [reflexivity |].
  destruct (null_aggregate_blocks_profiling memory empty_engine "history"
              "history_asset" "history_auto" (stats := empty_table_stats)
              (mkWorld [] []) eq_refl eq_refl) as (H1 & H2 & _).
  split; [exact H1 | exact H2].
Defined.

Lemma discovered_stats_well_formed_witness :
  profile_data.discover item_engine "item" (mkWorld ([] : store) [])
  = (item_discovered (mkWorld [] []), Ok item_stats)
  /\ forallb well_formed item_stats = true.
Proof.
  assert (H : profile_data.discover item_engine "item" (mkWorld ([] : store) [])
              = (item_discovered (mkWorld [] []), Ok item_stats))
    by (vm_compute; reflexivity).
  split; [exact H |].
  destruct (discovered_stats_well_formed item_engine "item" _ H) as (_ & _ & Hwf & _).
  exact Hwf.
Defined.

(* ===================================================================== *)
(** ** More on the profiler: from the catalog to the rules *)
(* ===================================================================== *)

Lemma mem_In (s : string) (l : list string) :
  profile_data.mem s l = true <-> In s l.
Proof.
  unfold profile_data.mem. rewrite existsb_exists. split.
  - intros [x [Hx E]]. apply String.eqb_eq in E. now subst x.
  - intros H. exists s. split; [exact H | apply String.eqb_refl].
Qed.

Lemma range_rule_numeric (c : string) (lo hi : Float.float) (s : stat) :
  In (ExpectColumnValuesToBeBetween c lo hi) (range_rule s) ->
  column s = c /\ is_numeric s = true.
Proof.
  unfold range_rule.
  destruct (is_numeric s), (min s), (max s); simpl; try tauto.
  intros [H | []]. inversion H. now split.
Qed.

Lemma in_map_entry (s : stat) (stats : list stat)
    (columns : list (string * string * string)) :
  map stat_entry stats = map catalog_entry columns ->
  In s stats ->
  exists nullable, In (column s, data_type s, nullable) columns.
Proof.
  intros Hmap Hs. apply (in_map stat_entry) in Hs. rewrite Hmap in Hs.
  apply in_map_iff in Hs. destruct Hs as [[[col dt] nl] [E Hrow]].
  unfold catalog_entry, stat_entry in E. inversion E; subst.
  now exists nl.
Qed.

(** X5. A range rule is only learned for a column that the catalog declares
    with one of the six numeric types. *)
Theorem range_rules_for_numeric_types (engine : Engine) (table_name : string)
    (stats : list stat) :
  query_stats engine table_name = Ok stats ->
  forallb well_formed stats = true ->
  forall c lo hi,
    In (ExpectColumnValuesToBeBetween c lo hi) (emitted stats) ->
    exists columns declared nullable,
      columns_query engine table_name = inl columns
      /\ In (c, declared, nullable) columns
      /\ In declared profile_data.numeric_types.
Proof.
  intros Hq Hwf c lo hi Hin.
  destruct (get_column_stats_cases engine table_name tt) as [r [Hr Hshape]].
  unfold query_stats in Hq. rewrite Hr in Hq. simpl in Hq. subst r.
  destruct Hshape as (columns & Hcols & Hmap & Htyped).
  apply (in_emitted _ _ Hwf) in Hin.
  destruct Hin as [[s [Hs [H | [H | H]]]] | H].
  - apply in_not_null_rule in H. destruct H as [H _]. discriminate.
  - apply range_rule_numeric in H. destruct H as [<- Hnum].
    destruct (@in_map_entry s stats columns Hmap Hs) as [nl Hrow].
    exists columns, (data_type s), nl. repeat split; try assumption.
    rewrite Forall_forall in Htyped. destruct (Htyped s Hs) as [Hty _].
    apply mem_In. now rewrite <- Hty.
  - apply in_unique_rule in H. destruct H as [H _]. discriminate.
  - apply in_table_rules in H. discriminate.
Qed.

Lemma range_rules_for_numeric_types_witness :
  exists columns declared nullable,
    columns_query item_engine "item" = inl columns
    /\ In ("i_price", declared, nullable) columns
    /\ In declared profile_data.numeric_types.
Proof.
  apply (@range_rules_for_numeric_types item_engine "item" item_stats
           eq_refl eq_refl "i_price"
           (fst (range_bounds (Float.of_Z 1) (Float.of_Z 100)))
           (snd (range_bounds (Float.of_Z 1) (Float.of_Z 100)))).
  vm_compute. tauto.
Defined.

(* ===================================================================== *)
(** ** More on the profiler: the count of expectations *)
(* ===================================================================== *)

Section Counting.
Variable G : Type.
Variable F : SuiteAPI G.
Variable suite : Suite F.

Lemma accepted_app (l1 l2 : list expectation) :
  forall g,
    accepted F suite (l1 ++ l2) g
    = accepted F suite l1 g + accepted F suite l2 (submit F suite l1 g).
Proof.
  induction l1 as [| e rest IH]; intros g; [reflexivity |].
  unfold submit in *. cbn [app accepted fold_left].
  destruct (add_expectation F suite e g) as [g' [u | msg]]; cbn [fst];
    rewrite IH; lia.
Qed.

Lemma accepted_bounds (rules : list expectation) :
  forall g, 0 <= accepted F suite rules g <= Z.of_nat (List.length rules).
Proof.
  induction rules as [| e rest IH]; intros g; [simpl; lia |].
  cbn [accepted List.length]. rewrite Nat2Z.inj_succ.
  destruct (add_expectation F suite e g) as [g' [u | msg]];
    specialize (IH g'); lia.
Qed.

Lemma adds_nil (n : Z) (w : world G) : ret n w = adds F suite [] n w.
Proof. destruct w. unfold adds, ret, submit. simpl. now rewrite Z.add_0_r. Qed.

Lemma adds_bind (m1 : M (world G) Z) (m2 : Z -> M (world G) Z)
    (l1 l2 : list expectation) (n : Z) (w : world G) :
  m1 w = adds F suite l1 n w ->
  (forall n' w', m2 n' w' = adds F suite l2 n' w') ->
  (x <- m1 ;; m2 x) w = adds F suite (l1 ++ l2) n w.
Proof.
  intros H1 H2. unfold bind. rewrite H1. unfold adds at 1. rewrite H2.
  unfold adds. simpl. rewrite submit_app, accepted_app. f_equal. f_equal. lia.
Qed.

Lemma try_add_adds (e : expectation) (n : Z) (w : world G) :
  profile_data.try_add F suite e n w = adds F suite [e] n w.
Proof.
  unfold profile_data.try_add, try_except, bind, call, ret, adds, submit, set_gx.
  simpl. destruct (add_expectation F suite e (gx w)) as [g' [u | msg]]; simpl;
    repeat f_equal; lia.
Qed.

Lemma column_expectations_adds (s : stat) (n : Z) (w : world G) :
  well_formed s = true ->
  profile_data.column_expectations F suite n s w = adds F suite (per_column s) n w.
Proof.
  intros Hwf. unfold profile_data.column_expectations, per_column.
  apply adds_bind.
  { unfold not_null_rule. destruct (null_count s) as [[| p | p] |];
      first [apply try_add_adds | apply adds_nil]. }
  intros n1 w1. apply adds_bind.
  { unfold range_rule, range_bounds. unfold well_formed in Hwf.
    destruct (is_numeric s), (min s) as [a |], (max s) as [b |];
      try discriminate; first [apply try_add_adds | apply adds_nil]. }
  intros n2 w2. unfold unique_rule, looks_like_id.
  destruct ((distinct_count s =? total_count s) && (total_count s >? 0))%bool;
    simpl; [| apply adds_nil].
  destruct (contains "_id" (lower (column s)) || endswith (lower (column s)) "id")%bool;
    first [apply try_add_adds | apply adds_nil].
Qed.

Lemma columns_adds (stats : list stat) :
  forallb well_formed stats = true ->
  forall n w,
    for_fold stats n (profile_data.column_expectations F suite) w
    = adds F suite (flat_map per_column stats) n w.
Proof.
  induction stats as [| s rest IH]; intros Hwf n w; simpl.
  - apply adds_nil.
  - simpl in Hwf. apply andb_prop in Hwf. destruct Hwf as [Hs Hrest].
    apply adds_bind; [now apply column_expectations_adds |].
    intros n' w'. now apply IH.
Qed.

Lemma row_count_adds (stats : list stat) (n : Z) (w : world G) :
  match first_total stats with
  | Some rows => 0 <= rows < row_count_limit
  | None => True
  end ->
  profile_data.row_count_expectation F suite n stats w
  = adds F suite (table_rules stats) n w.
Proof.
  intros Hrows. rewrite table_rules_eq. unfold profile_data.row_count_expectation.
  destruct stats as [| stat0 rest]; [apply adds_nil |]. simpl in Hrows.
  destruct (Z.eqb_spec (total_count stat0) 0) as [E | E]; [apply adds_nil |].
  rewrite row_bounds_exact by lia.
  rewrite int_times_0_8, int_times_1_2 by lia.
  unfold bind, lift. apply try_add_adds.
Qed.

End Counting.

Lemma per_column_length (s : stat) : (List.length (per_column s) <= 3)%nat.
Proof.
  unfold per_column, not_null_rule, range_rule, unique_rule.
  rewrite !length_app.
  destruct (null_count s) as [[| p | p] |]; destruct (is_numeric s), (min s), (max s);
    destruct ((distinct_count s =? total_count s) && (total_count s >? 0)
              && looks_like_id (column s))%bool; simpl; lia.
Qed.

Lemma table_rules_length (stats : list stat) :
  (List.length (table_rules stats) <= 1)%nat.
Proof.
  rewrite table_rules_eq. destruct stats as [| stat0 rest]; [simpl; lia |].
  destruct (total_count stat0 =? 0); [simpl; lia |].
  destruct (row_bounds (total_count stat0)) as [[lo hi] | e]; simpl; lia.
Qed.

Lemma flat_map_per_column_length (stats : list stat) :
  (List.length (flat_map per_column stats) <= 3 * List.length stats)%nat.
Proof.
  induction stats as [| s rest IH]; simpl; [lia |].
  rewrite length_app. pose proof (per_column_length s). lia.
Qed.

Lemma generate_adds {G} (F : SuiteAPI G) (suite : Suite F) (stats : list stat)
    (table_name : string) (w : world G) :
  forallb well_formed stats = true ->
  match first_total stats with
  | Some rows => 0 <= rows < row_count_limit
  | None => True
  end ->
  profile_data.generate_expectations_from_stats F suite stats table_name w
  = (mkWorld (submit F suite (emitted stats) (gx w)) (stdout w),
     Ok (accepted F suite (emitted stats) (gx w))).
Proof.
  intros Hwf Hrows. unfold profile_data.generate_expectations_from_stats.
  rewrite (emitted_eq _ Hwf).
  rewrite (@adds_bind G F suite _ _ (flat_map per_column stats) (table_rules stats) 0 w).
  - unfold adds. now rewrite Z.add_0_l.
  - now apply columns_adds.
  - intros n' w'. now apply row_count_adds.
Qed.

(** X6. On well-formed records of a table below the limit of the row count,
    [generate_expectations_from_stats] does not raise, whatever the suite
    does with the rules: every emitted rule is submitted, in order, and the
    count returned is the number of rules the suite took, which is at most
    three per column and one for the table. *)
Theorem generate_counts_accepted {G} (F : SuiteAPI G) (suite : Suite F)
    (stats : list stat) (table_name : string) (w : world G) :
  forallb well_formed stats = true ->
  match first_total stats with
  | Some rows => 0 <= rows < row_count_limit
  | None => True
  end ->
  profile_data.generate_expectations_from_stats F suite stats table_name w
  = (mkWorld (submit F suite (emitted stats) (gx w)) (stdout w),
     Ok (accepted F suite (emitted stats) (gx w)))
  /\ 0 <= accepted F suite (emitted stats) (gx w)
       <= Z.of_nat (List.length (emitted stats))
  /\ (List.length (emitted stats) <= 3 * List.length stats + 1)%nat.
Proof.
  intros Hwf Hrows. split; [| split].
  - now apply generate_adds.
  - apply accepted_bounds.
  - rewrite (emitted_eq _ Hwf), length_app.
    pose proof (flat_map_per_column_length stats).
    pose proof (table_rules_length stats). lia.
Qed.

Lemma generate_counts_accepted_witness :
  profile_data.generate_expectations_from_stats memory_suites "item_auto" item_stats
    "item" (mkWorld [("item_auto", [])] [])
  = (mkWorld (submit memory_suites "item_auto" (emitted item_stats)
                [("item_auto", [])]) [],
     Ok (accepted memory_suites "item_auto" (emitted item_stats)
           [("item_auto", [])])).
Proof.
  apply (@generate_counts_accepted store memory_suites "item_auto" item_stats
           "item" (mkWorld [("item_auto", [])] []) eq_refl).
  simpl. unfold row_count_limit. lia.
Defined.

(* ===================================================================== *)
(** ** What a computation may raise *)
(* ===================================================================== *)

Lemma bind_print {G A} (l : line) (f : unit -> M (world G) A) (w : world G) :
  bind (print l) f w = f tt (mkWorld (gx w) (stdout w ++ [l])).
Proof. reflexivity. Qed.

Lemma bind_ok {W A B} (m : M W A) (f : A -> M W B) (w w' : W) (a : A) :
  m w = (w', Ok a) -> bind m f w = f a w'.
Proof. intros H. unfold bind. now rewrite H. Qed.

Lemma bind_raise {W A B} (m : M W A) (f : A -> M W B) (w w' : W) (e : exn) :
  m w = (w', Raise e) -> bind m f w = (w', Raise e).
Proof. intros H. unfold bind. now rewrite H. Qed.


Lemma only_ret {W A} (a : A) : raises_exceptions_only (@ret W A a).
Proof. intros w w' e H. discriminate. Qed.

Lemma only_raise {W A} (e : exn) :
  is_Exception e = true -> raises_exceptions_only (@raise W A e).
Proof. intros He w w' e' H. inversion H. now subst. Qed.

Lemma only_print {G} (l : line) : raises_exceptions_only (@print G l).
Proof. intros w w' e H. discriminate. Qed.

Lemma only_call {G A} (op : API G A) : raises_exceptions_only (call op).
Proof.
  intros w w' e. unfold call. destruct (op (gx w)) as [g [a | msg]]; intros H;
    inversion H. reflexivity.
Qed.

Lemma only_lift {W A} (r : result A) :
  (forall e, r = Raise e -> is_Exception e = true) ->
  raises_exceptions_only (@lift W A r).
Proof. intros Hr w w' e H. inversion H. now apply Hr. Qed.

Lemma only_bind {W A B} (m : M W A) (f : A -> M W B) :
  raises_exceptions_only m -> (forall a, raises_exceptions_only (f a)) ->
  raises_exceptions_only (bind m f).
Proof.
  intros Hm Hf w w' e. unfold bind.
  destruct (m w) as [w1 [a | e1]] eqn:E.
  - apply Hf.
  - intros H. inversion H; subst. exact (Hm _ _ _ E).
Qed.

Lemma only_try_except {W A} (m : M W A) (handler : exn -> M W A) :
  raises_exceptions_only m ->
  (forall e, is_Exception e = true -> raises_exceptions_only (handler e)) ->
  raises_exceptions_only (try_except m handler).
Proof.
  intros Hm Hh w w' e. unfold try_except.
  destruct (m w) as [w1 [a | e1]] eqn:E; [discriminate |].
  rewrite (Hm _ _ _ E). exact (Hh e1 (Hm _ _ _ E) w1 w' e).
Qed.

Lemma only_for_each {W A} (l : list A) (body : A -> M W unit) :
  (forall x, raises_exceptions_only (body x)) ->
  raises_exceptions_only (for_each l body).
Proof.
  intros Hbody. induction l as [| x rest IH]; simpl.
  - apply only_ret.
  - apply only_bind; [apply Hbody | intros _; exact IH].
Qed.

Lemma only_for_fold {W A B} (l : list A) (body : B -> A -> M W B) :
  (forall acc x, raises_exceptions_only (body acc x)) ->
  forall acc, raises_exceptions_only (for_fold l acc body).
Proof.
  intros Hbody. induction l as [| x rest IH]; intros acc; simpl.
  - apply only_ret.
  - apply only_bind; [apply Hbody | intros acc'; apply IH].
Qed.

Lemma only_int_times (n : Z) (x : Float.float) :
  forall e,
    match int_mul_float n x with
    | Ok y => int_of_float y
    | Raise e => Raise e
    end = Raise e -> is_Exception e = true.
Proof.
  intros e. unfold int_mul_float, int_of_float.
  destruct (Float.of_Z n); try (intros H; inversion H; reflexivity);
    match goal with
    | |- context [Float.trunc ?y] => destruct (Float.trunc y), y
    end; intros H; inversion H; reflexivity.
Qed.

(** A found exception is caught by the [except Exception] of a loop turn
    that prints it. *)
Lemma caught_and_printed {G A} (m : M (world G) A) (report : exn -> line)
    (w : world G) :
  raises_exceptions_only m ->
  exists w', try_except (m ;; ret tt) (fun e => print (report e)) w = (w', Ok tt).
Proof.
  intros Hm. unfold try_except, bind.
  destruct (m w) as [w1 [a | e]] eqn:E.
  - now exists w1.
  - rewrite (Hm _ _ _ E). eexists. reflexivity.
Qed.

Section ProfilerRuns.
Variable G : Type.
Variable F : Framework G.

Lemma only_try_add (suite : Suite F) (e : expectation) (n : Z) :
  raises_exceptions_only (profile_data.try_add F suite e n).
Proof.
  apply only_try_except.
  - apply only_bind; [apply only_call | intros; apply only_ret].
  - intros; apply only_ret.
Qed.

Lemma only_generate (suite : Suite F) (stats : list stat) (table_name : string) :
  raises_exceptions_only
    (profile_data.generate_expectations_from_stats F suite stats table_name).
Proof.
  apply only_bind.
  - apply only_for_fold. intros acc s. unfold profile_data.column_expectations.
    apply only_bind.
    { destruct (null_count s) as [[| p | p] |];
        first [apply only_try_add | apply only_ret]. }
    intros n1. apply only_bind.
    { destruct (is_numeric s), (min s), (max s);
        first [apply only_try_add | apply only_ret | now apply only_raise]. }
    intros n2.
    destruct ((distinct_count s =? total_count s) && (total_count s >? 0))%bool;
      [| apply only_ret].
    destruct (contains "_id" (lower (column s)) || endswith (lower (column s)) "id")%bool;
      first [apply only_try_add | apply only_ret].
  - intros n. unfold profile_data.row_count_expectation.
    destruct stats as [| stat0 rest]; [apply only_ret |].
    destruct (total_count stat0 =? 0); [apply only_ret |].
    apply only_bind; [apply only_lift, only_int_times |].
    intros lo. apply only_bind; [apply only_lift, only_int_times |].
    intros hi. apply only_try_add.
Qed.

Lemma only_discover (engine : Engine) (table_name : string) :
  raises_exceptions_only (@profile_data.discover G engine table_name).
Proof.
  intros w w' e H.
  destruct (discover_cases engine table_name w) as [w1 [_ Hd]].
  rewrite Hd in H. clear Hd.
  destruct (get_column_stats_cases engine table_name tt) as [r [Hr Hshape]].
  unfold query_stats in H. rewrite Hr in H. simpl in H.
  destruct r as [stats | e0].
  - destruct (existsb lacks_aggregate stats); inversion H. reflexivity.
  - destruct Hshape as [msg ->]. inversion H. reflexivity.
Qed.

Lemma only_create_suite (suite_name : string) :
  raises_exceptions_only (profile_data.create_suite F suite_name).
Proof.
  apply only_try_except; [apply only_call |].
  intros e He. destruct (profile_data.already_exists e).
  - apply only_bind; [apply only_print |]. intros _.
    apply only_bind; [apply only_call | intros _; apply only_call].
  - now apply only_raise.
Qed.

Lemma only_fill_suite (suite : Suite F) (stats : list stat) (table_name : string) :
  raises_exceptions_only (profile_data.fill_suite F suite stats table_name).
Proof.
  apply only_bind; [apply only_generate |]. intros count.
  apply only_bind; [apply only_print |]. intros _.
  apply only_bind; [apply only_print |]. intros _.
  apply only_bind; [intros w w' e H; discriminate |]. intros exps.
  apply only_bind; [| intros _; apply only_ret].
  apply only_for_each. intros exp. apply only_print.
Qed.

Lemma only_auto_profile_table (engine : Engine)
    (datasource_name table_name asset_name suite_name : string) :
  raises_exceptions_only
    (profile_data.auto_profile_table F engine datasource_name table_name
       asset_name suite_name).
Proof.
  apply only_bind; [apply only_discover |]. intros stats.
  apply only_bind; [apply only_create_suite |]. intros suite.
  apply only_fill_suite.
Qed.

Lemma profile_tables_returns (engine : Engine)
    (tables : list (string * string * string)) (w : world G) :
  exists w', profile_data.profile_tables F engine tables w = (w', Ok tt).
Proof.
  unfold profile_data.profile_tables. apply for_each_returns.
  intros [[table_name asset_name] suite_name] w0.
  apply (caught_and_printed
           (fun e => [Lit "  Error profiling "; Str table_name; Lit ": ";
                      Str (str e)])).
  apply only_auto_profile_table.
Qed.

End ProfilerRuns.



(* ===================================================================== *)
(** ** More on the profiler: a table that is profiled, and the whole run *)
(* ===================================================================== *)



Section ProfilerMain.
Variable G : Type.
Variable F : Framework G.

Lemma listing_of_suites (all : list (string * Z)) (w : world G) :
  exists w',
    gx w' = gx w
    /\ (for_each all
          (fun '(name, n) =>
             print [Lit "  - "; Str name; Lit ": "; Int n; Lit " expectations"]) ;;
        print [Lit newline; Lit "Run validation with:"] ;;
        print [Lit "  python /app/scripts/run_validation.py"]) w
       = (w', Ok tt).
Proof.
  destruct (@for_each_keeps_gx G _ all
              (fun '(name, n) =>
                 print [Lit "  - "; Str name; Lit ": "; Int n; Lit " expectations"]))
    with (w := w) as [w1 [H1 Hg]].
  { intros [name n] w0. eexists. split; reflexivity. }
  rewrite (bind_ok _ _ _ H1). rewrite !bind_print.
  eexists. split; [| reflexivity]. exact Hg.
Qed.

(** X9. The outcome of the profiler's [main]: a refused connection ends the run
    after the banner, before the project context is asked for; a context that
    cannot be opened ends it before any table; otherwise the five tables are
    gone through without an error getting out, and the run ends well unless
    the final listing of the suites raises. *)
Theorem profiler_main_outcome (environ : string -> option string) (w : world G) :
  match create_engine F (profile_data.get_connection_string environ) with
  | inr msg =>
      profile_data.main F environ w
      = (mkWorld (gx w) (stdout w ++ profiler_banner), Raise (Error msg))
  | inl engine =>
      match get_context F (gx w) with
      | (g, inr msg) =>
          profile_data.main F environ w
          = (mkWorld g
               (stdout w ++ profiler_banner
                ++ [[Lit newline; Lit "Connected to PostgreSQL"]]),
             Raise (Error msg))
      | (g, inl _) =>
          exists w1 w2,
            profile_data.profile_tables F engine profile_data.tables
              (mkWorld g
                 (stdout w ++ profiler_banner
                  ++ [[Lit newline; Lit "Connected to PostgreSQL"]]))
            = (w1, Ok tt)
            /\ gx w2 = fst (suites_all F (gx w1))
            /\ profile_data.main F environ w
               = (w2, match snd (suites_all F (gx w1)) with
                      | inl _ => Ok tt
                      | inr msg => Raise (Error msg)
                      end)
      end
  end.
Proof.
  destruct (create_engine F (profile_data.get_connection_string environ))
    as [engine | msg] eqn:Hengine.
  - destruct (get_context F (gx w)) as [g [[] | msg]] eqn:Hctx.
    + destruct (profile_tables_returns F engine profile_data.tables
                  (mkWorld g
                     (stdout w ++ profiler_banner
                      ++ [[Lit newline; Lit "Connected to PostgreSQL"]])))
        as [w1 Htables].
      exists w1.
      assert (Hrest : exists w2,
                 gx w2 = fst (suites_all F (gx w1))
                 /\ (print [Lit newline; Lit (rule 60)] ;;
                     print [Lit "AUTO-PROFILING COMPLETE"] ;;
                     print [Lit (rule 60)] ;;
                     print [Lit newline; Lit "Generated expectation suites:"] ;;
                     all <- call (suites_all F) ;;
                     for_each all
                       (fun '(name, n) =>
                          print [Lit "  - "; Str name; Lit ": "; Int n;
                                 Lit " expectations"]) ;;
                     print [Lit newline; Lit "Run validation with:"] ;;
                     print [Lit "  python /app/scripts/run_validation.py"]) w1
                    = (w2, match snd (suites_all F (gx w1)) with
                           | inl _ => Ok tt
                           | inr msg => Raise (Error msg)
                           end)).
      { rewrite !bind_print. cbn [gx stdout]. unfold bind at 1, call at 1. cbn [gx].
        destruct (suites_all F (gx w1)) as [g' [all | msg]]; cbn [fst snd].
        - match goal with
          | |- context [bind ?m ?k ?w0] =>
              destruct (listing_of_suites all w0) as [w2 [Hg Hl]]
          end.
          exists w2. split; [exact Hg | exact Hl].
        - eexists. split; [| reflexivity]. reflexivity. }
      destruct Hrest as [w2 [Hg Hrest]].
      exists w2. split; [exact Htables |]. split; [exact Hg |].
      unfold profiler_banner in Htables. cbn [app] in Htables.
      unfold profile_data.main. rewrite !bind_print. cbn [gx stdout].
      unfold bind at 1, attempt at 1. rewrite Hengine.
      rewrite bind_print. cbn [gx stdout]. unfold bind at 1, call at 1. cbn [gx].
      rewrite Hctx. unfold set_gx. cbn [stdout].
      rewrite <- !app_assoc. cbn [app].
      rewrite (bind_ok _ _ _ Htables). exact Hrest.
    + unfold profile_data.main. rewrite !bind_print. cbn [gx stdout].
      unfold bind at 1, attempt at 1. rewrite Hengine.
      rewrite bind_print. cbn [gx stdout]. unfold bind at 1, call at 1. cbn [gx].
      rewrite Hctx. unfold set_gx, profiler_banner. cbn [stdout].
      now rewrite <- !app_assoc.
  - unfold profile_data.main. rewrite !bind_print. cbn [gx stdout].
    unfold bind at 1, attempt at 1. rewrite Hengine.
    unfold profiler_banner. now rewrite <- !app_assoc.
Qed.

End ProfilerMain.

(* ===================================================================== *)
(** ** init_gx.py: the table assets *)
(* ===================================================================== *)

Section BootstrapRuns.
Variable G : Type.
Variable B : init_gx.Bootstrap G.

Lemma add_asset_cases (datasource : init_gx.Datasource B) (table_name : string)
    (w : world G) :
  exists l,
    init_gx.add_asset B datasource table_name w
    = (mkWorld
         (fst (init_gx.add_table_asset B datasource (table_name ++ "_asset")%string
                 table_name (gx w)))
         (stdout w ++ [l]),
       Ok tt).
Proof.
  unfold init_gx.add_asset, try_except, bind, call, print, set_gx.
  destruct (init_gx.add_table_asset B datasource (table_name ++ "_asset")%string
              table_name (gx w)) as [g [[] | msg]]; cbn [fst gx stdout is_Exception].
  - eexists. reflexivity.
  - cbn [str]. destruct (contains "already exists" (lower msg)); eexists; reflexivity.
Qed.

Lemma asset_loop (datasource : init_gx.Datasource B) (tables : list string) :
  forall w : world G,
  exists lines,
    for_each tables (init_gx.add_asset B datasource) w
    = (mkWorld (assets_attempted B datasource tables (gx w)) (stdout w ++ lines),
       Ok tt)
    /\ List.length lines = List.length tables.
Proof.
  induction tables as [| t rest IH]; intros w.
  - exists []. destruct w. simpl. unfold ret. now rewrite app_nil_r.
  - destruct (add_asset_cases datasource t w) as [l Hl].
    cbn [for_each]. rewrite (bind_ok _ _ _ Hl).
    match goal with
    | |- context [for_each rest _ ?w0] => destruct (IH w0) as [lines [Hrest Hlen]]
    end.
    exists (l :: lines). rewrite Hrest. cbn [gx stdout]. split.
    + unfold assets_attempted. cbn [fold_left]. now rewrite <- app_assoc.
    + simpl. now rewrite Hlen.
Qed.

(** X11. When the project context opens and the datasource is found or created,
    the bootstrap tries the nine TPC-C tables and ends well unless the final
    listing of the datasources raises.  The connection string is used only
    when no datasource of the name [tpcc_postgres] exists yet. *)
Theorem init_context_outcome (environ : string -> option string) (w : world G)
    (g0 g1 g2 : G) (existing : list (init_gx.Datasource B))
    (datasource : init_gx.Datasource B) :
  init_gx.get_context B (gx w) = (g0, inl tt) ->
  init_gx.data_sources_all B g0 = (g1, inl existing) ->
  (if existsb (String.eqb "tpcc_postgres") (map (init_gx.name B) existing)
   then init_gx.data_sources_get B "tpcc_postgres" g1
   else init_gx.add_postgres B "tpcc_postgres"
          (init_gx.get_connection_string environ) g1)
  = (g2, inl datasource) ->
  let g3 := assets_attempted B datasource init_gx.tpcc_tables g2 in
  exists w',
    gx w' = fst (init_gx.data_sources_all B g3)
    /\ init_gx.init_context B environ w
       = (w', match snd (init_gx.data_sources_all B g3) with
              | inl _ => Ok tt
              | inr msg => Raise (Error msg)
              end).
Proof.
  intros Hctx Hall Hds g3.
  assert (Hresolve : forall out,
             exists out',
               init_gx.resolve_datasource B (init_gx.get_connection_string environ)
                 (mkWorld g0 out)
               = (mkWorld g2 out', Ok datasource)).
  { intros out. unfold init_gx.resolve_datasource.
    unfold bind at 1, call at 1. cbn [gx]. rewrite Hall. unfold set_gx. cbn [stdout].
    destruct (existsb (String.eqb "tpcc_postgres") (map (init_gx.name B) existing)).
    - rewrite bind_print. cbn [gx stdout]. unfold call. cbn [gx]. rewrite Hds.
      eexists. reflexivity.
    - unfold bind at 1, call at 1. cbn [gx]. rewrite Hds. unfold set_gx.
      rewrite bind_print. eexists. reflexivity. }
  unfold init_gx.init_context. rewrite !bind_print. cbn [gx stdout].
  unfold bind at 1, call at 1. cbn [gx]. rewrite Hctx. unfold set_gx. cbn [stdout].
  rewrite bind_print. cbn [gx stdout].
  match goal with
  | |- context [bind _ _ {| gx := g0; stdout := ?out |}] =>
      destruct (Hresolve out) as [out' Hr]
  end.
  rewrite (bind_ok _ _ _ Hr).
  destruct (asset_loop datasource init_gx.tpcc_tables (mkWorld g2 out'))
    as [lines [Hloop _]].
  rewrite (bind_ok _ _ _ Hloop). cbn [gx stdout]. fold g3.
  rewrite bind_print. cbn [gx stdout]. unfold bind at 1, call at 1. cbn [gx].
  destruct (init_gx.data_sources_all B g3) as [g4 [all | msg]]; cbn [fst snd].
  - eexists. split; [| reflexivity]. reflexivity.
  - eexists. split; [| reflexivity]. reflexivity.
Qed.

End BootstrapRuns.

(** X10. The loop of the bootstrap over the tables never raises: each table is
    tried in its turn, whether the tables before it were added, were known
    already or were refused, and each turn prints exactly one line. *)
Theorem asset_loop_attempts_every_table {G} (B : init_gx.Bootstrap G)
    (datasource : init_gx.Datasource B) (tables : list string) (w : world G) :
  exists lines,
    for_each tables (init_gx.add_asset B datasource) w
    = (mkWorld (assets_attempted B datasource tables (gx w)) (stdout w ++ lines),
       Ok tt)
    /\ List.length lines = List.length tables.
Proof. apply asset_loop. Qed.

Lemma init_context_outcome_witness :
  exists w',
    gx w' = ["item_asset"; "warehouse_asset"; "district_asset"; "customer_asset";
             "history_asset"; "orders_asset"; "new_order_asset"; "order_line_asset";
             "stock_asset"]
    /\ init_gx.init_context fresh_project compose_environ (mkWorld ["item_asset"] [])
       = (w', Ok tt).
Proof.
  exact (@init_context_outcome (list string) fresh_project compose_environ
           (mkWorld ["item_asset"] []) ["item_asset"] ["item_asset"] ["item_asset"]
           [] "tpcc_postgres" eq_refl eq_refl eq_refl).
Defined.

(* ===================================================================== *)
(** ** More on the validator *)
(* ===================================================================== *)

Section ValidatorRuns.
Variable G : Type.
Variable V : run_validation.Validation G.

(** X12. [run_validation] never raises.  It returns the verdict of a validation
    that ran, with the result itself, after the two lines that report it, or
    the pair of [None] after one line that reports the error; no other pair
    is returned. *)
Theorem run_validation_outcome (datasource_name asset_name suite_name : string)
    (w : world G) :
  exists w' outcome,
    run_validation.run_validation V datasource_name asset_name suite_name w
    = (w', Ok outcome)
    /\ ((outcome = (None, None)
         /\ exists msg,
             stdout w'
             = stdout w
               ++ [[Lit newline; Lit "Validating "; Str asset_name; Lit " against ";
                    Str suite_name; Lit "..."];
                   [Lit "  Error: "; Str msg]])
        \/ (exists result,
               outcome = (Some (run_validation.success result), Some result)
               /\ stdout w'
                  = stdout w
                    ++ [[Lit newline; Lit "Validating "; Str asset_name;
                         Lit " against "; Str suite_name; Lit "..."]]
                    ++ verdict_lines result)).
Proof.
  unfold run_validation.run_validation, verdict_lines. run_py.
  destruct (run_validation.data_sources_get V datasource_name (gx w))
    as [g1 [ds | msg]]; simpl; [| verdict].
  destruct (run_validation.get_asset V ds asset_name g1) as [g2 [a | msg]]; simpl;
    [| verdict].
  destruct (run_validation.get_batch_definition V a _ g2) as [g3 [b | msg]]; simpl.
  - destruct (run_validation.suites_get V suite_name g3) as [g4 [su | msg]]; simpl;
      [| verdict].
    destruct (run_validation.validation_definitions_get V _ g4) as [g5 [vd | msg]];
      simpl.
    + destruct (run_validation.run V vd g5) as [g6 [r | msg]]; simpl; verdict.
    + destruct (run_validation.validation_definitions_add V _ b su g5)
        as [g6 [vd | msg']]; simpl; [| verdict].
      destruct (run_validation.run V vd g6) as [g7 [r | msg']]; simpl; verdict.
  - destruct (run_validation.add_batch_definition_whole_table V a _ g3)
      as [g3' [b | msg']]; simpl; [| verdict].
    destruct (run_validation.suites_get V suite_name g3') as [g4 [su | msg']]; simpl;
      [| verdict].
    destruct (run_validation.validation_definitions_get V _ g4) as [g5 [vd | msg']];
      simpl.
    + destruct (run_validation.run V vd g5) as [g6 [r | msg']]; simpl; verdict.
    + destruct (run_validation.validation_definitions_add V _ b su g5)
        as [g6 [vd | msg'']]; simpl; [| verdict].
      destruct (run_validation.run V vd g6) as [g7 [r | msg'']]; simpl; verdict.
Qed.

Lemma collect_any_handler (triples : list (string * string * string))
    (handler : list (string * string * option bool) -> string -> string -> exn ->
               M (world G) (list (string * string * option bool))) :
  forall acc (w : world G),
    for_fold triples acc
      (fun results '(datasource_name, asset_name, suite_name) =>
         try_except
           (r <- run_validation.run_validation V datasource_name asset_name suite_name ;;
            let '(success, result) := r in
            ret (results ++ [(asset_name, suite_name, success)]))
           (handler results asset_name suite_name)) w
    = for_fold triples acc
        (fun results '(datasource_name, asset_name, suite_name) =>
           r <- run_validation.run_validation V datasource_name asset_name suite_name ;;
           ret (results ++ [(asset_name, suite_name, fst r)])) w.
Proof.
  induction triples as [| [[d a] s] rest IH]; intros acc w; [reflexivity |].
  cbn [for_fold].
  destruct (run_validation_returns V d a s w) as (w1 & success & result & Hrun).
  unfold bind at 1, try_except at 1, bind at 1. rewrite Hrun. unfold ret at 1.
  unfold bind at 2 3. rewrite Hrun. unfold ret at 2. cbn [fst]. apply IH.
Qed.

End ValidatorRuns.

(** X13. The [except] of the loop of the validator's [main] is never entered:
    with any other handler in its place the loop does the same, and it is the
    loop that appends to [results] what each [run_validation] returned. *)
Theorem skipping_is_unreachable {G} (V : run_validation.Validation G)
    (triples : list (string * string * string))
    (handler : list (string * string * option bool) -> string -> string -> exn ->
               M (world G) (list (string * string * option bool)))
    (w : world G) :
  run_validation.collect_results V triples w
  = for_fold triples []
      (fun results '(datasource_name, asset_name, suite_name) =>
         try_except
           (r <- run_validation.run_validation V datasource_name asset_name suite_name ;;
            let '(success, result) := r in
            ret (results ++ [(asset_name, suite_name, success)]))
           (handler results asset_name suite_name)) w.
Proof.
  unfold run_validation.collect_results.
  rewrite (collect_any_handler V triples handler).
  apply (collect_any_handler V triples
           (fun results asset_name suite_name e =>
              print [Lit "  Skipping "; Str suite_name; Lit ": "; Str (str e)] ;;
              ret (results ++ [(asset_name, suite_name, None)]))).
Qed.

(** X14. When the project context cannot be opened, the validator stops after its
    banner: no validation is run, and the interpreter ends with status 1. *)
Theorem validator_context_failure {G} (V : run_validation.Validation G)
    (now : string) (w : world G) (g : G) (msg : string) :
  run_validation.get_context V (gx w) = (g, inr msg) ->
  run_validation.main V now w
  = (mkWorld g (stdout w ++ validator_banner now), Raise (Error msg))
  /\ run_validation.exit_status (snd (run_validation.main V now w)) = 1.
Proof.
  intros Hctx.
  assert (Hmain : run_validation.main V now w
                  = (mkWorld g (stdout w ++ validator_banner now),
                     Raise (Error msg))).
  { unfold run_validation.main. rewrite !bind_print. cbn [gx stdout].
    unfold bind at 1, call at 1. cbn [gx]. rewrite Hctx.
    unfold set_gx, validator_banner. cbn [stdout]. now rewrite <- !app_assoc. }
  split; [exact Hmain |]. now rewrite Hmain.
Qed.

Lemma validator_context_failure_witness :
  run_validation.main no_project "2025-01-01T00:00:00" (mkWorld tt [])
  = (mkWorld tt (validator_banner "2025-01-01T00:00:00"),
     Raise (Error "No gx directory was found here"))
  /\ run_validation.exit_status
       (snd (run_validation.main no_project "2025-01-01T00:00:00" (mkWorld tt [])))
     = 1.
Proof.
  exact (@validator_context_failure unit no_project "2025-01-01T00:00:00"
           (mkWorld tt []) tt "No gx directory was found here" eq_refl).
Defined.

(* ===================================================================== *)
(** ** The learned rules and the data they were learned from *)
(* ===================================================================== *)

(** X15. The row-count rule of a table holds the count it was learned from, and
    its lower bound is below that count.  The upper bound is above the count
    only from five rows on: for a table of one to four rows it is the count
    itself. *)
Theorem row_count_rule_holds_the_count (stat0 : stat) (rest : list stat) :
  forallb well_formed (stat0 :: rest) = true ->
  0 < total_count stat0 < row_count_limit ->
  exists lo hi,
    filter is_row_count (emitted (stat0 :: rest))
    = [ExpectTableRowCountToBeBetween lo hi]
    /\ 0 <= lo < total_count stat0
    /\ total_count stat0 <= hi
    /\ (total_count stat0 < hi <-> 5 <= total_count stat0).
Proof.
  intros Hwf HN. rewrite (row_count_rules _ Hwf), table_rules_eq.
  destruct (Z.eqb_spec (total_count stat0) 0) as [E | E]; [lia |].
  rewrite row_bounds_exact by lia.
  exists (8 * total_count stat0 / 10), (12 * total_count stat0 / 10).
  split; [reflexivity |].
  repeat split; Z.to_euclidean_division_equations; lia.
Qed.

Lemma row_count_rule_holds_the_count_witness :
  exists lo hi,
    filter is_row_count (emitted item_stats)
    = [ExpectTableRowCountToBeBetween lo hi]
    /\ 0 <= lo < 100000
    /\ 100000 <= hi
    /\ (100000 < hi <-> 5 <= 100000).
Proof.
  apply (@row_count_rule_holds_the_count i_id [i_price; i_name] eq_refl).
  simpl. unfold row_count_limit. lia.
Defined.

